(** * Proof Insight web client: the proof workflow of [src/App.jsx]

    The repository holds two revisions of one React component, [App]: a plain
    view (lines 1-207) and a styled view (lines 207-479).  Both keep the
    session in [useState] cells and drive it from four event handlers,
    [onFileChange], [onSign], [onSubmit] and [onVerify]; the styled view adds
    drag and drop and a clear-file control.

    The embedding is shallow.  A handler is a computation in a small monad
    that threads the React store and a log of the calls made to the outside
    (wallet, network, digest primitive, verification widget) and that ends
    in one of JavaScript's three completions: normal, [return] or [throw].
    The answers of the outside world are read from an environment record, so
    every theorem quantifies over all possible answers.

    A handler is embedded twice.  The first embedding, in the monad [M],
    runs it in one go; it describes a handler that nothing interrupts.  The
    second, in [Async], cuts it at its [await]s, where other handlers can
    run; the two are proved to agree when nothing comes in between. *)

From Stdlib Require Import Strings.String Strings.Ascii Strings.Byte.
From Stdlib Require Import Lists.List Bool.Bool ZArith.ZArith NArith.NArith.
From Stdlib Require Import Numbers.HexadecimalString.
Import ListNotations.

Local Open Scope list_scope.
Local Open Scope string_scope.
Set Warnings "-register-all".

(** ** JavaScript values that cross the wire *)

Module JS.

(** A number that crossed the wire, by the two things the component can
    see of it: whether it is truthy (neither zero nor NaN) and the text
    [ToString] gives it.  How a double is written is the engine's business
    ([1e+21], [18446744073709552000]); the handlers compute with none. *)
Record number : Type := mkNumber {
  nonzero : bool;
  printed : string
}.

(** A value produced by [res.json()]. *)
Inductive value : Type :=
| Null
| Bool (b : bool)
| Num (n : number)
| Str (s : string)
| Arr (items : list value)
| Obj (props : list (string * value)).

(** The outcome of a call into the outside world: a promise that settles,
    or a synchronous call that returns or throws.  [Err] carries the
    [message] of the thrown [Error]. *)
Inductive result (A : Type) : Type :=
| Ok (a : A)
| Err (message : string).
Arguments Ok {A} a.
Arguments Err {A} message.

(** [!!s] for a string: only the empty string is falsy. *)
Definition truthy (s : string) : bool :=
  match s with
  | EmptyString => false
  | String _ _ => true
  end.

(** [ToBoolean] on a wire value. *)
Definition ToBoolean (v : value) : bool :=
  match v with
  | Null => false
  | Bool b => b
  | Num n => nonzero n
  | Str s => truthy s
  | Arr _ => true
  | Obj _ => true
  end.

(** Own properties of a parsed object; a parsed object holds each key
    once, so the first binding is the binding. *)
Fixpoint lookup (key : string) (props : list (string * value)) : option value :=
  match props with
  | [] => None
  | (k, v) :: rest => if (k =? key)%string then Some v else lookup key rest
  end.

(** [ToString], as applied by a template literal; [None] is a TypeError.
    An array joins its elements with a comma, writing [null] elements as
    the empty string.  An object is written by [Object.prototype.toString]
    unless it has a [toString] of its own: a parsed value is never a
    function, so that member cannot be called, [valueOf] does not give a
    primitive either, and the conversion throws. *)
Fixpoint ToString (v : value) : option string :=
  match v with
  | Null => Some "null"
  | Bool true => Some "true"
  | Bool false => Some "false"
  | Num n => Some (printed n)
  | Str s => Some s
  | Arr items =>
      (fix join (l : list value) : option string :=
         match l with
         | [] => Some ""
         | x :: l' =>
             match match x with Null => Some "" | _ => ToString x end with
             | None => None
             | Some here =>
                 match l' with
                 | [] => Some here
                 | _ :: _ =>
                     match join l' with
                     | Some rest => Some (here ++ "," ++ rest)
                     | None => None
                     end
                 end
             end
         end) items
  | Obj props =>
      match lookup "toString" props with
      | Some _ => None
      | None => Some "[object Object]"
      end
  end.

(** [v.key] for a key that is neither an index nor a built-in member
    ([error], [found]): [undefined] ([None]) on primitives, arrays and
    objects without the key; a TypeError on [null], reported here as
    [inl key]. *)
Definition Get (v : value) (key : string) : string + option value :=
  match v with
  | Null => inl key
  | Obj props => inr (lookup key props)
  | _ => inr None
  end.

(** [!!x] for a property that may be [undefined]. *)
Definition truthy_prop (x : option value) : bool :=
  match x with
  | None => false
  | Some v => ToBoolean v
  end.

(** [`${x || fallback}`] with a string [fallback]; [None] is the TypeError
    of [ToString]. *)
Definition or_string (x : option value) (fallback : string) : option string :=
  match x with
  | Some v => if ToBoolean v then ToString v else Some fallback
  | None => Some fallback
  end.

(** [String.prototype.padStart]. *)
Definition padStart (targetLength : nat) (padString : string) (s : string) : string :=
  let missing := targetLength - String.length s in
  match padString with
  | EmptyString => s
  | _ => substring 0 missing (String.concat "" (repeat padString missing)) ++ s
  end.

(** [Number.prototype.toString(16)] on a non-negative integer. *)
Definition toString16 (n : N) : string :=
  HexadecimalString.NilZero.string_of_uint (N.to_hex_uint n).

End JS.

Import JS.

(** ** Pure helpers of [App.jsx] *)

(** [hexFromBuffer] (lines 18-22, 218-222). *)
Definition hexFromBuffer (buffer : list byte) : string :=
  String.concat "" (map (fun b => padStart 2 "0" (toString16 (Byte.to_N b))) buffer).

(** [buildSignedMessage] (lines 30-32, 230-232): a template literal with one
    hole. *)
Definition buildSignedMessage (fileHashHex : string) : string :=
  "Proof Insight: register file hash " ++ fileHashHex.

(** ** The React store *)

(** One field per [useState] cell.  [dragActive] and [selectedFileName]
    exist in the styled view only; the plain view never touches them.
    [null] in [registerResult] and [verifyResult] is [JS.Null]. *)
Record Session : Type := mkSession {
  hash : string;
  sig : string;
  userAddr : string;
  status : string;
  turnstileToken : string;
  registerResult : value;
  verifyResult : value;
  dragActive : bool;
  selectedFileName : string
}.

(** The cells as [useState] initialises them (lines 35-41, 235-245). *)
Definition initial : Session :=
  {| hash := ""; sig := ""; userAddr := ""; status := ""; turnstileToken := "";
     registerResult := Null; verifyResult := Null;
     dragActive := false; selectedFileName := "" |}.

(** ** The outside world *)

Record URL : Type := mkURL {
  href : string;
  searchParams : list (string * string)
}.

(** A [fetch] request.  The target is kept as a [URL] with its query pairs,
    the body as the value handed to [JSON.stringify]. *)
Record Request : Type := mkRequest {
  method : string;
  url : URL;
  headers : list (string * string);
  body : option value
}.

Record Response : Type := mkResponse {
  ok : bool;
  statusText : string;
  json : result value
}.

Record File : Type := mkFile {
  name : string;
  arrayBuffer : result (list byte)
}.

(** Calls that leave the component, in the order they are made. *)
Inductive Effect : Type :=
| ReadFile (fileName : string)
| SubtleDigest (algorithm : string) (data : list byte)
| ProviderSend (rpc : string)
| GetSigner
| GetAddress
| SignMessage (message : string)
| Fetch (req : Request)
| ReadJson
| TurnstileReset.

(** Configuration and the answers of the collaborators.  [new_URL] is the
    [URL] constructor (it throws on a string that is not an absolute URL);
    [ethereum] says whether [window.ethereum] is there and
    [BrowserProvider] what the [ethers.BrowserProvider] constructor does
    with it; [crypto_subtle] is [crypto.subtle.digest], or nothing where
    [crypto.subtle] is [undefined] (a page not served securely);
    [turnstileRef] says whether [turnstileRef.current] is attached.  The
    [..._message] fields give the engine's wording of a TypeError on reading
    a property of [null] or of [undefined], of a TypeError on an object
    that cannot be written as text, and of a ReferenceError on an unbound
    identifier. *)
Record Env : Type := mkEnv {
  WORKER_URL : string;
  new_URL : string -> result URL;
  ethereum : bool;
  BrowserProvider : result unit;
  eth_requestAccounts : result unit;
  getSigner : result unit;
  getAddress : result string;
  signMessage : string -> result string;
  crypto_subtle : option (list byte -> result (list byte));
  fetch : Request -> result Response;
  turnstileRef : bool;
  null_property_message : string -> string;
  undefined_property_message : string -> string;
  not_primitive_message : string;
  not_defined_message : string -> string
}.

(** What [crypto.subtle.digest("SHA-256", data)] comes to: the answer of
    the primitive, or the TypeError of reading [digest] where
    [crypto.subtle] is missing. *)
Definition subtle_digest (env : Env) (data : list byte) : result (list byte) :=
  match crypto_subtle env with
  | Some digest => digest data
  | None => Err (undefined_property_message env "digest")
  end.

(** ** The handler monad *)

(** How a statement list ends. *)
Inductive completion (A : Type) : Type :=
| Normal (a : A)
| Return
| Throw (message : string).
Arguments Normal {A} a.
Arguments Return {A}.
Arguments Throw {A} message.

Record World : Type := mkWorld {
  store : Session;
  trace : list Effect
}.

Definition M (A : Type) : Type := World -> completion A * World.

Definition ret {A} (a : A) : M A := fun w => (Normal a, w).

Definition bind {A B} (m : M A) (k : A -> M B) : M B :=
  fun w =>
    match m w with
    | (Normal a, w') => k a w'
    | (Return, w') => (Return, w')
    | (Throw e, w') => (Throw e, w')
    end.

Declare Scope js_scope.
Delimit Scope js_scope with js.
Notation "x <- c ;; k" := (bind c (fun x => k))
  (at level 61, c at next level, right associativity) : js_scope.
Notation "c ;; k" := (bind c (fun _ => k))
  (at level 61, right associativity) : js_scope.
Local Open Scope js_scope.

(** [return;] *)
Definition return_ {A} : M A := fun w => (Return, w).

(** [throw new Error(message)] *)
Definition throw {A} (message : string) : M A := fun w => (Throw message, w).

(** [if (c) { m }] with no [else]. *)
Definition when (c : bool) (m : M unit) : M unit :=
  if c then m else ret tt.

Definition emit (e : Effect) : M unit :=
  fun w => (Normal tt, {| store := store w; trace := (trace w ++ [e])%list |}).

(** A call to the outside: logged, then its answer or its exception. *)
Definition call {A} (e : Effect) (r : result A) : M A :=
  emit e ;;
  match r with
  | Ok a => ret a
  | Err message => throw message
  end.

(** A synchronous library call that is not logged. *)
Definition lift {A} (r : result A) : M A :=
  match r with
  | Ok a => ret a
  | Err message => throw message
  end.

(** [try { body } catch (err) { handler(err.message) }] *)
Definition try_catch (body : M unit) (handler : string -> M unit) : M unit :=
  fun w =>
    match body w with
    | (Throw e, w') => handler e w'
    | other => other
    end.

(** [try { body } finally { final }]: [final] runs after every completion
    of [body], and an abrupt completion of [final] replaces it. *)
Definition try_finally (body : M unit) (final : M unit) : M unit :=
  fun w =>
    let (c, w') := body w in
    match final w' with
    | (Normal _, w'') => (c, w'')
    | abrupt => abrupt
    end.

(** [body.key] inside a handler. *)
Definition prop (env : Env) (v : value) (key : string) : M (option value) :=
  match Get v key with
  | inl k => throw (null_property_message env k)
  | inr x => ret x
  end.

(** The text of a template literal, or the TypeError of writing it. *)
Definition template (env : Env) (x : option string) : M string :=
  match x with
  | Some s => ret s
  | None => throw (not_primitive_message env)
  end.

(** The setters.  A setter enqueues the new value; the model commits it at
    once, and reads inside a handler go to the values the handler closed
    over (its [r] argument), as they do in React. *)
Definition update (f : Session -> Session) : M unit :=
  fun w => (Normal tt, {| store := f (store w); trace := trace w |}).

(** One cell replaced, the others kept. *)

Definition with_hash (v : string) (s : Session) : Session :=
  {| hash := v; sig := sig s; userAddr := userAddr s; status := status s;
     turnstileToken := turnstileToken s; registerResult := registerResult s; verifyResult := verifyResult s;
     dragActive := dragActive s; selectedFileName := selectedFileName s |}.
Definition with_sig (v : string) (s : Session) : Session :=
  {| hash := hash s; sig := v; userAddr := userAddr s; status := status s;
     turnstileToken := turnstileToken s; registerResult := registerResult s; verifyResult := verifyResult s;
     dragActive := dragActive s; selectedFileName := selectedFileName s |}.
Definition with_userAddr (v : string) (s : Session) : Session :=
  {| hash := hash s; sig := sig s; userAddr := v; status := status s;
     turnstileToken := turnstileToken s; registerResult := registerResult s; verifyResult := verifyResult s;
     dragActive := dragActive s; selectedFileName := selectedFileName s |}.
Definition with_status (v : string) (s : Session) : Session :=
  {| hash := hash s; sig := sig s; userAddr := userAddr s; status := v;
     turnstileToken := turnstileToken s; registerResult := registerResult s; verifyResult := verifyResult s;
     dragActive := dragActive s; selectedFileName := selectedFileName s |}.
Definition with_turnstileToken (v : string) (s : Session) : Session :=
  {| hash := hash s; sig := sig s; userAddr := userAddr s; status := status s;
     turnstileToken := v; registerResult := registerResult s; verifyResult := verifyResult s;
     dragActive := dragActive s; selectedFileName := selectedFileName s |}.
Definition with_registerResult (v : value) (s : Session) : Session :=
  {| hash := hash s; sig := sig s; userAddr := userAddr s; status := status s;
     turnstileToken := turnstileToken s; registerResult := v; verifyResult := verifyResult s;
     dragActive := dragActive s; selectedFileName := selectedFileName s |}.
Definition with_verifyResult (v : value) (s : Session) : Session :=
  {| hash := hash s; sig := sig s; userAddr := userAddr s; status := status s;
     turnstileToken := turnstileToken s; registerResult := registerResult s; verifyResult := v;
     dragActive := dragActive s; selectedFileName := selectedFileName s |}.
Definition with_dragActive (v : bool) (s : Session) : Session :=
  {| hash := hash s; sig := sig s; userAddr := userAddr s; status := status s;
     turnstileToken := turnstileToken s; registerResult := registerResult s; verifyResult := verifyResult s;
     dragActive := v; selectedFileName := selectedFileName s |}.
Definition with_selectedFileName (v : string) (s : Session) : Session :=
  {| hash := hash s; sig := sig s; userAddr := userAddr s; status := status s;
     turnstileToken := turnstileToken s; registerResult := registerResult s; verifyResult := verifyResult s;
     dragActive := dragActive s; selectedFileName := v |}.

Definition setHash (v : string) : M unit := update (with_hash v).
Definition setSig (v : string) : M unit := update (with_sig v).
Definition setUserAddr (v : string) : M unit := update (with_userAddr v).
Definition setStatus (v : string) : M unit := update (with_status v).
Definition setTurnstileToken (v : string) : M unit := update (with_turnstileToken v).
Definition setRegisterResult (v : value) : M unit := update (with_registerResult v).
Definition setVerifyResult (v : value) : M unit := update (with_verifyResult v).
Definition setDragActive (v : bool) : M unit := update (with_dragActive v).
Definition setSelectedFileName (v : string) : M unit := update (with_selectedFileName v).

(** ** The handlers shared by both views *)

(** [e.target.files?.[0]]: the file list may be missing or empty. *)
Record ChangeEvent : Type := mkChangeEvent {
  files : option (list File)
}.

Definition first_file (e : ChangeEvent) : option File :=
  match files e with
  | Some (f :: _) => Some f
  | _ => None
  end.

(** [sha256Hex] (lines 24-28, 224-228).  Where [crypto.subtle] is missing,
    evaluating [crypto.subtle.digest] throws before any call is made. *)
Definition sha256Hex (env : Env) (file : File) : M string :=
  buffer <- call (ReadFile (name file)) (arrayBuffer file) ;;
  match crypto_subtle env with
  | None => throw (undefined_property_message env "digest")
  | Some digest =>
      digest <- call (SubtleDigest "SHA-256" buffer) (digest buffer) ;;
      ret ("0x" ++ hexFromBuffer digest)
  end.

(** [onSign] (lines 64-82, 288-305).  [r] holds the cells as the handler
    closed over them. *)
Definition onSign (env : Env) (r : Session) : M unit :=
  when (negb (truthy (hash r))) (setStatus "No hash to sign" ;; return_) ;;
  when (negb (ethereum env)) (setStatus "MetaMask not found" ;; return_) ;;
  try_catch
    (setStatus "Requesting signature from wallet..." ;;
     lift (BrowserProvider env) ;;
     call (ProviderSend "eth_requestAccounts") (eth_requestAccounts env) ;;
     call GetSigner (getSigner env) ;;
     address <- call GetAddress (getAddress env) ;;
     setUserAddr address ;;
     let message := buildSignedMessage (hash r) in
     signature <- call (SignMessage message) (signMessage env message) ;;
     setSig signature ;;
     setStatus "Signature obtained")
    (fun message => setStatus ("Error: " ++ message)).

(** The request of [onSubmit] (lines 92-101, 315-324). *)
Definition submitRequest (env : Env) (r : Session) : Request :=
  {| method := "POST";
     url := {| href := WORKER_URL env; searchParams := [] |};
     headers := [("Content-Type", "application/json")];
     body := Some (Obj [("fileHash", Str (hash r));
                        ("signature", Str (sig r));
                        ("user", Str (userAddr r));
                        ("turnstileToken", Str (turnstileToken r))]) |}.

(** [onSubmit] (lines 84-116, 307-338). *)
Definition onSubmit (env : Env) (r : Session) : M unit :=
  when (negb (truthy (hash r)) || negb (truthy (sig r)))
    (setStatus "Hash and signature required" ;; return_) ;;
  when (negb (truthy (turnstileToken r)))
    (setStatus "Please complete the CAPTCHA" ;; return_) ;;
  setStatus "Sending to server..." ;;
  setRegisterResult Null ;;
  try_finally
    (try_catch
       (let req := submitRequest env r in
        res <- call (Fetch req) (fetch env req) ;;
        body <- call ReadJson (json res) ;;
        when (negb (ok res))
          (error <- prop env body "error" ;;
           message <- template env (or_string error (statusText res)) ;;
           setStatus ("Error: " ++ message) ;;
           return_) ;;
        setRegisterResult body ;;
        setStatus "Success! Proof stored on-chain.")
       (fun message => setStatus ("Error: " ++ message)))
    (when (turnstileRef env) (emit TurnstileReset) ;;
     setTurnstileToken "").

(** [verifyUrl.searchParams.append(key, v)]. *)
Definition searchParams_append (u : URL) (key v : string) : URL :=
  {| href := href u; searchParams := (searchParams u ++ [(key, v)])%list |}.

(** The request of [onVerify] (line 127, 348). *)
Definition verifyRequest (verifyUrl : URL) : Request :=
  {| method := "GET"; url := verifyUrl; headers := []; body := None |}.

(** [onVerify] (lines 118-140, 340-359). *)
Definition onVerify (env : Env) (r : Session) : M unit :=
  when (negb (truthy (hash r))) (setStatus "Please select a file first" ;; return_) ;;
  setStatus "Verifying proof from blockchain..." ;;
  setVerifyResult Null ;;
  try_catch
    (verifyUrl <- lift (new_URL env (WORKER_URL env)) ;;
     let verifyUrl := searchParams_append verifyUrl "hash" (hash r) in
     let req := verifyRequest verifyUrl in
     res <- call (Fetch req) (fetch env req) ;;
     body <- call ReadJson (json res) ;;
     when (negb (ok res))
       (error <- prop env body "error" ;;
        message <- template env (or_string error (statusText res)) ;;
        setStatus ("Server error: " ++ message) ;;
        return_) ;;
     setVerifyResult body ;;
     found <- prop env body "found" ;;
     setStatus (if truthy_prop found
                then "Verification complete: Proof found."
                else "Verification complete: Proof not found."))
    (fun message => setStatus ("Network error: " ++ message)).

(** The [onSuccess] callback of the verification widget (lines 169, 474). *)
Definition onSuccess (token : string) : M unit :=
  setTurnstileToken token.

(** The [disabled] attributes of the three buttons (lines 159-161,
    422, 429, 436). *)
Definition signDisabled (r : Session) : bool :=
  negb (truthy (hash r)) || negb (negb (truthy (sig r))).
Definition submitDisabled (r : Session) : bool :=
  negb (truthy (sig r)) || negb (truthy (turnstileToken r)).
Definition verifyDisabled (r : Session) : bool :=
  negb (truthy (hash r)).

(** A click on a button: a disabled button dispatches nothing. *)
Definition click (disabled : bool) (handler : M unit) : M unit :=
  if disabled then ret tt else handler.

(** ** The plain view (lines 1-207) *)

Module Plain.

(** [onFileChange] (lines 45-62). *)
Definition onFileChange (env : Env) (r : Session) (e : ChangeEvent) : M unit :=
  let f := first_file e in
  setHash "" ;;
  setSig "" ;;
  setStatus "" ;;
  setRegisterResult Null ;;
  setVerifyResult Null ;;
  match f with
  | Some f =>
      setStatus "Computing SHA-256..." ;;
      try_catch
        (h <- sha256Hex env f ;;
         setHash h ;;
         setStatus "Ready to sign")
        (fun message => setStatus ("Error: " ++ message))
  | None => ret tt
  end.

End Plain.

(** ** The styled view (lines 207-479) *)

Module Styled.

(** [onDrag] (lines 247-255); [type] is [e.type]. *)
Definition onDrag (type : string) : M unit :=
  if (type =? "dragenter")%string || (type =? "dragover")%string
  then setDragActive true
  else when (type =? "dragleave")%string (setDragActive false).

(** [onFileChange] (lines 268-286). *)
Definition onFileChange (env : Env) (r : Session) (e : ChangeEvent) : M unit :=
  let f := first_file e in
  setSelectedFileName (match f with Some f => name f | None => "" end) ;;
  setHash "" ;;
  setSig "" ;;
  setStatus "" ;;
  setRegisterResult Null ;;
  setVerifyResult Null ;;
  match f with
  | Some f =>
      setStatus "Computing SHA-256..." ;;
      try_catch
        (h <- sha256Hex env f ;;
         setHash h ;;
         setStatus "Ready to sign")
        (fun message => setStatus ("Error: " ++ message))
  | None => ret tt
  end.

(** [onDrop] (lines 257-266): [files] is [e.dataTransfer.files].  The
    assignment to [inputRef.current.files] touches the DOM only. *)
Definition onDrop (env : Env) (r : Session) (files : option (list File)) : M unit :=
  setDragActive false ;;
  match files with
  | Some (_ :: _) => onFileChange env r {| files := files |}
  | _ => ret tt
  end.

(** The [onClick] of the clear-file control (lines 399-403).  The view
    declares [inputRef], not [fileInputRef]: the third statement reads an
    unbound identifier and throws after the two setters have run. *)
Definition onClearClick (env : Env) : M unit :=
  setSelectedFileName "" ;;
  setHash "" ;;
  throw (not_defined_message env "fileInputRef").

(** The control is rendered only while [selectedFileName] is non-empty
    (line 395). *)
Definition clearRendered (r : Session) : bool :=
  truthy (selectedFileName r).

End Styled.

(** ** Running a handler *)

(** A handler starts from the committed cells, which are also the ones it
    closed over, with an empty log. *)
Definition run (handler : Session -> M unit) (s : Session) : completion unit * World :=
  handler s {| store := s; trace := [] |}.

Definition after (handler : Session -> M unit) (s : Session) : Session :=
  store (snd (run handler s)).

Definition effects (handler : Session -> M unit) (s : Session) : list Effect :=
  trace (snd (run handler s)).

Definition outcome (handler : Session -> M unit) (s : Session) : completion unit :=
  fst (run handler s).

(** What the user and the widget can do to a view. *)
Inductive View : Type := PlainView | StyledView.

Inductive Action : Type :=
| ChooseFile (e : ChangeEvent)
| ClickSign
| ClickSubmit
| ClickVerify
| TokenIssued (token : string)
| DragOver (type : string)
| DropFiles (files : option (list File))
| ClickClear.

(** The handler an action reaches.  The plain view has no drop zone and no
    clear control. *)
Definition dispatch (v : View) (env : Env) (a : Action) (r : Session) : M unit :=
  match a with
  | ChooseFile e =>
      match v with
      | PlainView => Plain.onFileChange env r e
      | StyledView => Styled.onFileChange env r e
      end
  | ClickSign => click (signDisabled r) (onSign env r)
  | ClickSubmit => click (submitDisabled r) (onSubmit env r)
  | ClickVerify => click (verifyDisabled r) (onVerify env r)
  | TokenIssued token => onSuccess token
  | DragOver type =>
      match v with
      | PlainView => ret tt
      | StyledView => Styled.onDrag type
      end
  | DropFiles fs =>
      match v with
      | PlainView => ret tt
      | StyledView => Styled.onDrop env r fs
      end
  | ClickClear =>
      match v with
      | PlainView => ret tt
      | StyledView => click (negb (Styled.clearRendered r)) (Styled.onClearClick env)
      end
  end.

(** The actions of a run in which every action is taken after the handler
    of the one before has settled, each with the world that answers it.
    Runs in which handlers overlap are those of [Async.interleave]. *)
Fixpoint replay (v : View) (steps : list (Env * Action)) (s : Session) : Session :=
  match steps with
  | [] => s
  | (env, a) :: rest => replay v rest (after (dispatch v env a) s)
  end.

(** ** Vocabulary of the statements *)

(** The fingerprint a file selection ends with: the digest of the first
    file when it can be read and digested, the empty string otherwise. *)
Definition selected_hash (env : Env) (e : ChangeEvent) : string :=
  match first_file e with
  | Some f =>
      match arrayBuffer f with
      | Ok data =>
          match subtle_digest env data with
          | Ok digest => "0x" ++ hexFromBuffer digest
          | Err _ => ""
          end
      | Err _ => ""
      end
  | None => ""
  end.

(** [userAddr] is non-empty only if [sig] is. *)
Definition address_implies_signature (s : Session) : Prop :=
  userAddr s <> "" -> sig s <> "".

(** The actions that write neither [sig] nor [userAddr]. *)
Definition leaves_attestation (a : Action) : bool :=
  match a with
  | ClickSubmit | ClickVerify | TokenIssued _ | DragOver _ | ClickClear => true
  | ChooseFile _ | DropFiles _ | ClickSign => false
  end.

(** ** Concrete worlds used by the examples *)

Module Demo.

(** A worker that answers every request with HTTP 500 and
    [{error: "rate limited"}], a wallet whose user declines to sign, and a
    digest primitive that returns three bytes. *)
Definition env : Env :=
  {| WORKER_URL := "https://worker.example/api";
     new_URL := fun s => Ok {| href := s; searchParams := [] |};
     ethereum := true;
     BrowserProvider := Ok tt;
     eth_requestAccounts := Ok tt;
     getSigner := Ok tt;
     getAddress := Ok "0xA1";
     signMessage := fun _ => Err "user rejected action";
     crypto_subtle := Some (fun _ => Ok [x00; xff; x0a]%byte);
     fetch := fun _ => Ok {| ok := false;
                             statusText := "Internal Server Error";
                             json := Ok (Obj [("error", Str "rate limited")]) |};
     turnstileRef := true;
     null_property_message := fun k => "Cannot read properties of null (reading '" ++ k ++ "')";
     undefined_property_message :=
       fun k => "Cannot read properties of undefined (reading '" ++ k ++ "')";
     not_primitive_message := "Cannot convert object to primitive value";
     not_defined_message := fun x => x ++ " is not defined" |}.

(** The same world with a wallet that signs. *)
Definition signing_env : Env :=
  {| WORKER_URL := WORKER_URL env;
     new_URL := new_URL env;
     ethereum := true;
     BrowserProvider := Ok tt;
     eth_requestAccounts := Ok tt;
     getSigner := Ok tt;
     getAddress := Ok "0xA1";
     signMessage := fun _ => Ok "0x5167";
     crypto_subtle := crypto_subtle env;
     fetch := fetch env;
     turnstileRef := true;
     null_property_message := null_property_message env;
     undefined_property_message := undefined_property_message env;
     not_primitive_message := not_primitive_message env;
     not_defined_message := not_defined_message env |}.

Definition file : File := {| name := "a.txt"; arrayBuffer := Ok ["h"]%byte |}.

(** A file has been hashed; nothing is signed. *)
Definition ready : Session :=
  {| hash := "0x00ff0a"; sig := ""; userAddr := ""; status := "Ready to sign";
     turnstileToken := ""; registerResult := Null; verifyResult := Null;
     dragActive := false; selectedFileName := "a.txt" |}.

(** Hashed, signed, and holding a verification token. *)
Definition signed : Session :=
  {| hash := "0x00ff0a"; sig := "0x5167"; userAddr := "0xA1"; status := "Signature obtained";
     turnstileToken := "tok-1"; registerResult := Null; verifyResult := Null;
     dragActive := false; selectedFileName := "a.txt" |}.

(** Signed, but the widget has not issued a token. *)
Definition no_token : Session :=
  {| hash := "0x00ff0a"; sig := "0x5167"; userAddr := "0xA1"; status := "Signature obtained";
     turnstileToken := ""; registerResult := Null; verifyResult := Null;
     dragActive := false; selectedFileName := "a.txt" |}.

(** Choose a file, sign it, clear the file. *)
Definition sign_then_clear : list (Env * Action) :=
  [(signing_env, ChooseFile {| files := Some [file] |});
   (signing_env, ClickSign);
   (signing_env, ClickClear)].

End Demo.

(** ** Handlers cut at their awaits *)

Module Async.

(** A handler as the engine runs it: writes to the cells and calls to the
    outside, run without interruption up to an [await], where the handler
    yields until what it awaits has settled.  The answers are those of the
    world the handler was started in. *)
Inductive task (A : Type) : Type :=
| Finished (c : completion A)
| Write (f : Session -> Session) (rest : task A)
| Call (e : Effect) (rest : task A)
| Yield (rest : task A).
Arguments Finished {A} c.
Arguments Write {A} f rest.
Arguments Call {A} e rest.
Arguments Yield {A} rest.

Definition ret {A} (a : A) : task A := Finished (Normal a).

Fixpoint bind {A B} (m : task A) (k : A -> task B) : task B :=
  match m with
  | Finished (Normal a) => k a
  | Finished Return => Finished Return
  | Finished (Throw e) => Finished (Throw e)
  | Write f rest => Write f (bind rest k)
  | Call e rest => Call e (bind rest k)
  | Yield rest => Yield (bind rest k)
  end.

Declare Scope async_scope.
Delimit Scope async_scope with async.
Notation "x <- c ;; k" := (bind c (fun x => k))
  (at level 61, c at next level, right associativity) : async_scope.
Notation "c ;; k" := (bind c (fun _ => k))
  (at level 61, right associativity) : async_scope.
Local Open Scope async_scope.

Definition return_ {A} : task A := Finished Return.

Definition throw {A} (message : string) : task A := Finished (Throw message).

Definition when (c : bool) (m : task unit) : task unit :=
  if c then m else ret tt.

(** A synchronous library call that is not logged. *)
Definition lift {A} (r : result A) : task A :=
  match r with
  | Ok a => ret a
  | Err message => throw message
  end.

(** A call that is made and not awaited. *)
Definition emit (e : Effect) : task unit := Call e (ret tt).

(** [await] on a call to the outside: the call is made, the handler
    yields, and it goes on with the answer or with the exception. *)
Definition call {A} (e : Effect) (r : result A) : task A :=
  Call e (Yield (lift r)).

Fixpoint try_catch (body : task unit) (handler : string -> task unit) : task unit :=
  match body with
  | Finished (Throw e) => handler e
  | Finished c => Finished c
  | Write f rest => Write f (try_catch rest handler)
  | Call e rest => Call e (try_catch rest handler)
  | Yield rest => Yield (try_catch rest handler)
  end.

(** The [finally] block, run after a body that completed as [c]. *)
Fixpoint and_then (final : task unit) (c : completion unit) : task unit :=
  match final with
  | Finished (Normal _) => Finished c
  | Finished abrupt => Finished abrupt
  | Write f rest => Write f (and_then rest c)
  | Call e rest => Call e (and_then rest c)
  | Yield rest => Yield (and_then rest c)
  end.

Fixpoint try_finally (body : task unit) (final : task unit) : task unit :=
  match body with
  | Finished c => and_then final c
  | Write f rest => Write f (try_finally rest final)
  | Call e rest => Call e (try_finally rest final)
  | Yield rest => Yield (try_finally rest final)
  end.

Definition prop (env : Env) (v : value) (key : string) : task (option value) :=
  match Get v key with
  | inl k => throw (null_property_message env k)
  | inr x => ret x
  end.

Definition template (env : Env) (x : option string) : task string :=
  match x with
  | Some s => ret s
  | None => throw (not_primitive_message env)
  end.

Definition update (f : Session -> Session) : task unit := Write f (ret tt).

Definition setHash (v : string) : task unit := update (with_hash v).
Definition setSig (v : string) : task unit := update (with_sig v).
Definition setUserAddr (v : string) : task unit := update (with_userAddr v).
Definition setStatus (v : string) : task unit := update (with_status v).
Definition setTurnstileToken (v : string) : task unit := update (with_turnstileToken v).
Definition setRegisterResult (v : value) : task unit := update (with_registerResult v).
Definition setVerifyResult (v : value) : task unit := update (with_verifyResult v).
Definition setDragActive (v : bool) : task unit := update (with_dragActive v).
Definition setSelectedFileName (v : string) : task unit := update (with_selectedFileName v).

(** [sha256Hex] (lines 24-28, 224-228). *)
Definition sha256Hex (env : Env) (file : File) : task string :=
  buffer <- call (ReadFile (name file)) (arrayBuffer file) ;;
  match crypto_subtle env with
  | None => throw (undefined_property_message env "digest")
  | Some digest =>
      digest <- call (SubtleDigest "SHA-256" buffer) (digest buffer) ;;
      ret ("0x" ++ hexFromBuffer digest)
  end.

(** [onSign] (lines 64-82, 288-305). *)
Definition onSign (env : Env) (r : Session) : task unit :=
  when (negb (truthy (hash r))) (setStatus "No hash to sign" ;; return_) ;;
  when (negb (ethereum env)) (setStatus "MetaMask not found" ;; return_) ;;
  try_catch
    (setStatus "Requesting signature from wallet..." ;;
     lift (BrowserProvider env) ;;
     call (ProviderSend "eth_requestAccounts") (eth_requestAccounts env) ;;
     call GetSigner (getSigner env) ;;
     address <- call GetAddress (getAddress env) ;;
     setUserAddr address ;;
     let message := buildSignedMessage (hash r) in
     signature <- call (SignMessage message) (signMessage env message) ;;
     setSig signature ;;
     setStatus "Signature obtained")
    (fun message => setStatus ("Error: " ++ message)).

(** [onSubmit] (lines 84-116, 307-338). *)
Definition onSubmit (env : Env) (r : Session) : task unit :=
  when (negb (truthy (hash r)) || negb (truthy (sig r)))
    (setStatus "Hash and signature required" ;; return_) ;;
  when (negb (truthy (turnstileToken r)))
    (setStatus "Please complete the CAPTCHA" ;; return_) ;;
  setStatus "Sending to server..." ;;
  setRegisterResult Null ;;
  try_finally
    (try_catch
       (let req := submitRequest env r in
        res <- call (Fetch req) (fetch env req) ;;
        body <- call ReadJson (json res) ;;
        when (negb (ok res))
          (error <- prop env body "error" ;;
           message <- template env (or_string error (statusText res)) ;;
           setStatus ("Error: " ++ message) ;;
           return_) ;;
        setRegisterResult body ;;
        setStatus "Success! Proof stored on-chain.")
       (fun message => setStatus ("Error: " ++ message)))
    (when (turnstileRef env) (emit TurnstileReset) ;;
     setTurnstileToken "").

(** [onVerify] (lines 118-140, 340-359). *)
Definition onVerify (env : Env) (r : Session) : task unit :=
  when (negb (truthy (hash r))) (setStatus "Please select a file first" ;; return_) ;;
  setStatus "Verifying proof from blockchain..." ;;
  setVerifyResult Null ;;
  try_catch
    (verifyUrl <- lift (new_URL env (WORKER_URL env)) ;;
     let verifyUrl := searchParams_append verifyUrl "hash" (hash r) in
     let req := verifyRequest verifyUrl in
     res <- call (Fetch req) (fetch env req) ;;
     body <- call ReadJson (json res) ;;
     when (negb (ok res))
       (error <- prop env body "error" ;;
        message <- template env (or_string error (statusText res)) ;;
        setStatus ("Server error: " ++ message) ;;
        return_) ;;
     setVerifyResult body ;;
     found <- prop env body "found" ;;
     setStatus (if truthy_prop found
                then "Verification complete: Proof found."
                else "Verification complete: Proof not found."))
    (fun message => setStatus ("Network error: " ++ message)).

Definition onSuccess (token : string) : task unit :=
  setTurnstileToken token.

Definition click (disabled : bool) (handler : task unit) : task unit :=
  if disabled then ret tt else handler.

(** The clear-file control is there to be clicked (line 395). *)
Definition clearRendered (r : Session) : bool := Styled.clearRendered r.

Module Plain.

(** [onFileChange] (lines 45-62). *)
Definition onFileChange (env : Env) (r : Session) (e : ChangeEvent) : task unit :=
  let f := first_file e in
  setHash "" ;;
  setSig "" ;;
  setStatus "" ;;
  setRegisterResult Null ;;
  setVerifyResult Null ;;
  match f with
  | Some f =>
      setStatus "Computing SHA-256..." ;;
      try_catch
        (h <- sha256Hex env f ;;
         setHash h ;;
         setStatus "Ready to sign")
        (fun message => setStatus ("Error: " ++ message))
  | None => ret tt
  end.

End Plain.

Module Styled.

(** [onDrag] (lines 247-255). *)
Definition onDrag (type : string) : task unit :=
  if (type =? "dragenter")%string || (type =? "dragover")%string
  then setDragActive true
  else when (type =? "dragleave")%string (setDragActive false).

(** [onFileChange] (lines 268-286). *)
Definition onFileChange (env : Env) (r : Session) (e : ChangeEvent) : task unit :=
  let f := first_file e in
  setSelectedFileName (match f with Some f => name f | None => "" end) ;;
  setHash "" ;;
  setSig "" ;;
  setStatus "" ;;
  setRegisterResult Null ;;
  setVerifyResult Null ;;
  match f with
  | Some f =>
      setStatus "Computing SHA-256..." ;;
      try_catch
        (h <- sha256Hex env f ;;
         setHash h ;;
         setStatus "Ready to sign")
        (fun message => setStatus ("Error: " ++ message))
  | None => ret tt
  end.

(** [onDrop] (lines 257-266): [onFileChange] is called and not awaited;
    its first piece runs inside the drop handler. *)
Definition onDrop (env : Env) (r : Session) (files : option (list File)) : task unit :=
  setDragActive false ;;
  match files with
  | Some (_ :: _) => onFileChange env r {| files := files |}
  | _ => ret tt
  end.

(** The [onClick] of the clear-file control (lines 399-403). *)
Definition onClearClick (env : Env) : task unit :=
  setSelectedFileName "" ;;
  setHash "" ;;
  throw (not_defined_message env "fileInputRef").

End Styled.

(** The handler an action reaches, as [dispatch]. *)
Definition dispatch (v : View) (env : Env) (a : Action) (r : Session) : task unit :=
  match a with
  | ChooseFile e =>
      match v with
      | PlainView => Plain.onFileChange env r e
      | StyledView => Styled.onFileChange env r e
      end
  | ClickSign => click (signDisabled r) (onSign env r)
  | ClickSubmit => click (submitDisabled r) (onSubmit env r)
  | ClickVerify => click (verifyDisabled r) (onVerify env r)
  | TokenIssued token => onSuccess token
  | DragOver type =>
      match v with
      | PlainView => ret tt
      | StyledView => Styled.onDrag type
      end
  | DropFiles fs =>
      match v with
      | PlainView => ret tt
      | StyledView => Styled.onDrop env r fs
      end
  | ClickClear =>
      match v with
      | PlainView => ret tt
      | StyledView =>
          click (negb (clearRendered r)) (Styled.onClearClick env)
      end
  end.

(** The task run in one go, as the monad [M] runs a handler. *)
Fixpoint atomic {A} (t : task A) (w : World) : completion A * World :=
  match t with
  | Finished c => (c, w)
  | Write f rest => atomic rest {| store := f (store w); trace := trace w |}
  | Call e rest => atomic rest {| store := store w; trace := (trace w ++ [e])%list |}
  | Yield rest => atomic rest w
  end.

(** The component between two events: the cells as committed, the calls
    made so far, and the handlers that wait for an answer. *)
Record System : Type := mkSystem {
  cells : Session;
  log : list Effect;
  pending : list (task unit)
}.

Definition start (s : Session) : System :=
  {| cells := s; log := []; pending := [] |}.

(** Runs a task up to its next [await], or to its end. *)
Fixpoint advance (t : task unit) (s : Session) (l : list Effect)
  : Session * list Effect * option (task unit) :=
  match t with
  | Finished _ => (s, l, None)
  | Write f rest => advance rest (f s) l
  | Call e rest => advance rest s (l ++ [e])%list
  | Yield rest => (s, l, Some rest)
  end.

(** What happens to the component: the user or the widget acts, and the
    handler starts on the cells as they are then; or what the [i]-th
    waiting handler awaits settles, and that handler goes on. *)
Inductive Event : Type :=
| Act (env : Env) (a : Action)
| Settle (i : nat).

Definition waiting (p : option (task unit)) : list (task unit) :=
  match p with
  | Some t => [t]
  | None => []
  end.

Definition step (v : View) (ev : Event) (sys : System) : System :=
  match ev with
  | Act env a =>
      let '(s, l, p) := advance (dispatch v env a (cells sys)) (cells sys) (log sys) in
      {| cells := s; log := l; pending := (pending sys ++ waiting p)%list |}
  | Settle i =>
      match nth_error (pending sys) i with
      | None => sys
      | Some t =>
          let '(s, l, p) := advance t (cells sys) (log sys) in
          {| cells := s; log := l;
             pending := (firstn i (pending sys) ++ waiting p
                           ++ skipn (S i) (pending sys))%list |}
      end
  end.

Fixpoint interleave (v : View) (events : list Event) (sys : System) : System :=
  match events with
  | [] => sys
  | ev :: rest => interleave v rest (step v ev sys)
  end.

(** No action is taken while a handler waits. *)
Fixpoint one_at_a_time (v : View) (events : list Event) (sys : System) : bool :=
  match events with
  | [] => true
  | ev :: rest =>
      match ev, pending sys with
      | Act _ _, _ :: _ => false
      | _, _ => one_at_a_time v rest (step v ev sys)
      end
  end.

(** A run from the initial state. *)
Definition run (v : View) (events : list Event) : System :=
  interleave v events (start initial).

(** The run was left undisturbed: no action was taken while a handler
    waited, and no handler waits at its end. *)
Definition undisturbed (v : View) (events : list Event) : bool :=
  one_at_a_time v events (start initial)
  && match pending (run v events) with
     | [] => true
     | _ :: _ => false
     end.

(** Where the component comes to rest once the first waiting handler has
    run to its end. *)
Definition settled (sys : System) : World :=
  match pending sys with
  | [] => {| store := cells sys; trace := log sys |}
  | t :: _ => snd (atomic t {| store := cells sys; trace := log sys |})
  end.

End Async.

(** ** Vocabulary of the further properties *)

(** The digits [toString(16)] writes. *)
Definition hex_digits : list ascii :=
  list_ascii_of_string "0123456789abcdef".

Definition hex_digit (n : N) : ascii :=
  nth (N.to_nat n) hex_digits "0"%char.

Definition is_lower_hex (c : ascii) : bool :=
  existsb (Ascii.eqb c) hex_digits.

(** The value of a digit: its position in [hex_digits]. *)
Fixpoint position (c : ascii) (digits : list ascii) : option N :=
  match digits with
  | [] => None
  | d :: rest =>
      if Ascii.eqb c d then Some 0%N
      else option_map N.succ (position c rest)
  end.

(** Reads a string of two-digit groups back into bytes.  The source has no
    decoder; this one states that [hexFromBuffer] loses nothing. *)
Fixpoint bufferFromHex (s : string) : option (list byte) :=
  match s with
  | EmptyString => Some []
  | String c1 (String c2 rest) =>
      match position c1 hex_digits, position c2 hex_digits, bufferFromHex rest with
      | Some h, Some l, Some bytes =>
          option_map (fun b => b :: bytes) (Byte.of_N (16 * h + l))
      | _, _, _ => None
      end
  | String _ EmptyString => None
  end.

(** The seven cells both views have. *)
Definition workflow_cells (s : Session)
  : string * string * string * string * string * value * value :=
  (hash s, sig s, userAddr s, status s, turnstileToken s,
   registerResult s, verifyResult s).

(** [files && files[0]]: the first file of a drop, if any. *)
Definition dropped_file (files : option (list File)) : option File :=
  first_file {| files := files |}.

(** The four calls [onSign] makes to the wallet, in order. *)
Definition wallet_calls (message : string) : list Effect :=
  [ProviderSend "eth_requestAccounts"; GetSigner; GetAddress; SignMessage message].

(** Whom a call goes to. *)
Inductive Collaborator : Type := TheFile | TheWallet | TheWorker | TheWidget.

Definition collaborator (e : Effect) : Collaborator :=
  match e with
  | ReadFile _ | SubtleDigest _ _ => TheFile
  | ProviderSend _ | GetSigner | GetAddress | SignMessage _ => TheWallet
  | Fetch _ | ReadJson => TheWorker
  | TurnstileReset => TheWidget
  end.

(** Whom each action may call. *)
Definition may_call (a : Action) (c : Collaborator) : bool :=
  match a, c with
  | ChooseFile _, TheFile | DropFiles _, TheFile => true
  | ClickSign, TheWallet => true
  | ClickSubmit, TheWorker | ClickSubmit, TheWidget => true
  | ClickVerify, TheWorker => true
  | _, _ => false
  end.

Definition is_fetch (e : Effect) : bool :=
  match e with
  | Fetch _ => true
  | _ => false
  end.

(** A result cell that holds something. *)
Definition present (v : value) : bool :=
  match v with
  | Null => false
  | _ => true
  end.

(** What the plain view keeps true: a signature has its fingerprint, a
    registration record its signature, a lookup result its fingerprint. *)
Definition plain_consistent (s : Session) : bool :=
  implb (truthy (sig s)) (truthy (hash s))
  && implb (present (registerResult s)) (truthy (sig s))
  && implb (present (verifyResult s)) (truthy (hash s)).

(** The calls of a run in which every action is taken after the handler of
    the one before has settled, step after step: the log of [replay]. *)
Fixpoint history (v : View) (steps : list (Env * Action)) (s : Session) : list Effect :=
  match steps with
  | [] => []
  | (env, a) :: rest =>
      (effects (dispatch v env a) s
         ++ history v rest (after (dispatch v env a) s))%list
  end.

(** The message of the last signature request of a log; [earlier] is the
    one before the log starts. *)
Fixpoint last_signed (log : list Effect) (earlier : option string) : option string :=
  match log with
  | [] => earlier
  | SignMessage message :: rest => last_signed rest (Some message)
  | _ :: rest => last_signed rest earlier
  end.

(** The fingerprint a request submits: the [fileHash] of its body. *)
Definition posted_hash (req : Request) : option string :=
  match body req with
  | Some (Obj props) =>
      match lookup "fileHash" props with
      | Some (Str h) => Some h
      | _ => None
      end
  | _ => None
  end.

(** Is [message] the signed message of fingerprint [h]? *)
Definition signs (message : option string) (h : string) : bool :=
  match message with
  | Some m => (m =? buildSignedMessage h)%string
  | None => false
  end.

(** Every submission in the log carries the fingerprint of the signature
    request that came last before it. *)
Fixpoint posts_signed (log : list Effect) (earlier : option string) : bool :=
  match log with
  | [] => true
  | SignMessage message :: rest => posts_signed rest (Some message)
  | Fetch req :: rest =>
      match posted_hash req with
      | Some h => signs earlier h
      | None => true
      end && posts_signed rest earlier
  | _ :: rest => posts_signed rest earlier
  end.

(** A stored signature that has its fingerprint belongs to it. *)
Definition signature_is_current (s : Session) (earlier : option string) : bool :=
  implb (truthy (sig s) && truthy (hash s)) (signs earlier (hash s)).

(** ** Module initialisation (lines 6-16, 211-216) *)

Module Startup.

(** [import.meta.env]: each variable is a string or is not defined. *)
Record ImportMetaEnv : Type := mkImportMetaEnv {
  VITE_WORKER_URL : option string;
  VITE_TURNSTILE_SITE_KEY : option string;
  VITE_SCAN_BASE_URL : option string
}.

(** The three module constants once the module has loaded. *)
Record Config : Type := mkConfig {
  WORKER_URL : string;
  TURNSTILE_SITE_KEY : string;
  SCAN_BASE_URL : string
}.

(** [!!x] for a variable that may be [undefined]. *)
Definition set (x : option string) : bool :=
  match x with
  | Some s => truthy s
  | None => false
  end.

(** The string behind a variable that passed [set]. *)
Definition text (x : option string) : string :=
  match x with
  | Some s => s
  | None => ""
  end.

(** The wording of the two [throw] statements in each view. *)
Definition not_set (v : View) (variable : string) : string :=
  match v with
  | PlainView => variable ++ " is not set in environment variables"
  | StyledView => variable ++ " is not set"
  end.

(** The top-level statements of the module. *)
Definition load (v : View) (env : ImportMetaEnv) : result Config :=
  let WORKER_URL := VITE_WORKER_URL env in
  let TURNSTILE_SITE_KEY := VITE_TURNSTILE_SITE_KEY env in
  let SCAN_BASE_URL :=
    if set (VITE_SCAN_BASE_URL env)
    then text (VITE_SCAN_BASE_URL env)
    else "https://amoy.polygonscan.com/tx/" in
  if negb (set WORKER_URL) then Err (not_set v "VITE_WORKER_URL")
  else if negb (set TURNSTILE_SITE_KEY) then Err (not_set v "VITE_TURNSTILE_SITE_KEY")
  else Ok {| WORKER_URL := text WORKER_URL;
             TURNSTILE_SITE_KEY := text TURNSTILE_SITE_KEY;
             SCAN_BASE_URL := SCAN_BASE_URL |}.

End Startup.

(** ** What the two result panels need to render (lines 183-203, 449-469) *)

(** Whether React takes a value as a child: text for a string or a number,
    nothing for [null] or a boolean, the children of an array one by one;
    a plain object is refused with an exception. *)
Fixpoint valid_child (v : value) : bool :=
  match v with
  | Obj _ => false
  | Arr items =>
      (fix all (l : list value) : bool :=
         match l with
         | [] => true
         | x :: l' => valid_child x && all l'
         end) items
  | _ => true
  end.

(** [{x}] for a member that may be [undefined]. *)
Definition child_ok (x : option value) : bool :=
  match x with
  | Some v => valid_child v
  | None => true
  end.

(** A member that a template literal, or a multiplication, can turn into a
    primitive. *)
Definition primitive_ok (x : option value) : bool :=
  match x with
  | Some v => match ToString v with Some _ => true | None => false end
  | None => true
  end.

(** [v.key] on a value that is not [null]. *)
Definition member (v : value) (key : string) : option value :=
  match Get v key with
  | inr x => x
  | inl _ => None
  end.

(** The component renders, that is, stays mounted: the registration panel
    writes [txHash] into a link and shows it with [blockNumber]; the lookup
    panel, when [found] is truthy, shows [owner] and multiplies
    [timestamp]. *)
Definition renders (s : Session) : bool :=
  (if ToBoolean (registerResult s)
   then primitive_ok (member (registerResult s) "txHash")
        && child_ok (member (registerResult s) "txHash")
        && child_ok (member (registerResult s) "blockNumber")
   else true)
  && (if ToBoolean (verifyResult s)
      then if truthy_prop (member (verifyResult s) "found")
           then child_ok (member (verifyResult s) "owner")
                && primitive_ok (member (verifyResult s) "timestamp")
           else true
      else true).

(** The component stays mounted along a run: it renders with the cells as
    they are after every event. *)
Fixpoint stays_mounted (v : View) (events : list Async.Event) (sys : Async.System)
  : bool :=
  match events with
  | [] => true
  | ev :: rest =>
      renders (Async.cells (Async.step v ev sys))
      && stays_mounted v rest (Async.step v ev sys)
  end.

(** ** Worlds that differ from another in one answer *)

Definition with_fetch (answer : Request -> result Response) (env : Env) : Env :=
  {| WORKER_URL := WORKER_URL env; new_URL := new_URL env;
     ethereum := ethereum env; BrowserProvider := BrowserProvider env;
     eth_requestAccounts := eth_requestAccounts env; getSigner := getSigner env;
     getAddress := getAddress env; signMessage := signMessage env;
     crypto_subtle := crypto_subtle env;
     fetch := answer;
     turnstileRef := turnstileRef env;
     null_property_message := null_property_message env;
     undefined_property_message := undefined_property_message env;
     not_primitive_message := not_primitive_message env;
     not_defined_message := not_defined_message env |}.

Definition with_worker (address : string) (parse : string -> result URL) (env : Env) : Env :=
  {| WORKER_URL := address; new_URL := parse;
     ethereum := ethereum env; BrowserProvider := BrowserProvider env;
     eth_requestAccounts := eth_requestAccounts env; getSigner := getSigner env;
     getAddress := getAddress env; signMessage := signMessage env;
     crypto_subtle := crypto_subtle env;
     fetch := fetch env;
     turnstileRef := turnstileRef env;
     null_property_message := null_property_message env;
     undefined_property_message := undefined_property_message env;
     not_primitive_message := not_primitive_message env;
     not_defined_message := not_defined_message env |}.

Definition with_subtle (primitive : option (list byte -> result (list byte))) (env : Env)
  : Env :=
  {| WORKER_URL := WORKER_URL env; new_URL := new_URL env;
     ethereum := ethereum env; BrowserProvider := BrowserProvider env;
     eth_requestAccounts := eth_requestAccounts env; getSigner := getSigner env;
     getAddress := getAddress env; signMessage := signMessage env;
     crypto_subtle := primitive;
     fetch := fetch env;
     turnstileRef := turnstileRef env;
     null_property_message := null_property_message env;
     undefined_property_message := undefined_property_message env;
     not_primitive_message := not_primitive_message env;
     not_defined_message := not_defined_message env |}.

(** ** Two runs in which an action overlaps a waiting handler *)

Module Overlap.

(** A digest primitive that gives two files two digests, and a wallet that
    signs. *)
Definition env : Env := with_subtle (Some (fun data => Ok data)) Demo.signing_env.

Definition first : File := {| name := "a.txt"; arrayBuffer := Ok ["a"]%byte |}.
Definition second : File := {| name := "b.txt"; arrayBuffer := Ok ["b"]%byte |}.

(** The first file is chosen and Sign is clicked; while the wallet prompt is
    open the second file is chosen and hashed; then the wallet answers. *)
Definition choose_while_signing : list Async.Event :=
  [Async.Act env (ChooseFile {| files := Some [first] |});
   Async.Settle 0; Async.Settle 0;
   Async.Act env ClickSign;
   Async.Settle 0; Async.Settle 0; Async.Settle 0;
   Async.Act env (ChooseFile {| files := Some [second] |});
   Async.Settle 1; Async.Settle 1;
   Async.Settle 0].

(** A worker that accepts every submission. *)
Definition accepting : Env :=
  with_fetch (fun _ => Ok {| ok := true; statusText := "OK";
                             json := Ok (Obj [("txHash", Str "0xabc")]) |})
    Demo.signing_env.

(** A file is chosen and signed and a token arrives; Submit is clicked, and
    while the request is on its way the file dialog is cancelled; then the
    worker answers. *)
Definition cancel_while_submitting : list Async.Event :=
  [Async.Act accepting (ChooseFile {| files := Some [Demo.file] |});
   Async.Settle 0; Async.Settle 0;
   Async.Act accepting ClickSign;
   Async.Settle 0; Async.Settle 0; Async.Settle 0; Async.Settle 0;
   Async.Act accepting (TokenIssued "tok-1");
   Async.Act accepting ClickSubmit;
   Async.Act accepting (ChooseFile {| files := None |});
   Async.Settle 0; Async.Settle 0].

End Overlap.

(** * Properties *)

(** ** Proof support *)

(** Unfolds the monad and the handlers down to matches on the answers of
    the outside world. *)
Ltac js_unfold :=
  cbv [run after effects outcome dispatch click
       onSign onSubmit onVerify onSuccess sha256Hex
       Plain.onFileChange Styled.onFileChange Styled.onDrop Styled.onDrag
       Styled.onClearClick
       bind ret when call emit lift try_catch try_finally prop template
       return_ throw update
       setHash setSig setUserAddr setStatus setTurnstileToken setRegisterResult
       setVerifyResult setDragActive setSelectedFileName
       with_hash with_sig with_userAddr with_status with_turnstileToken
       with_registerResult with_verifyResult with_dragActive
       with_selectedFileName] in *.

(** Splits on the first scrutinee that is stuck on an unknown answer. *)
Ltac js_case :=
  match goal with
  | |- context [match ?x with _ => _ end] =>
      lazymatch x with
      | context [match _ with _ => _ end] => fail
      | _ => destruct x eqn:?
      end
  | |- context [if ?x then _ else _] =>
      lazymatch x with
      | context [if _ then _ else _] => fail
      | _ => destruct x eqn:?
      end
  end.

Ltac js_run := js_unfold; simpl; repeat (js_case; simpl in *; try discriminate).

(** Like [js_unfold], and also through the projections of the store and of
    the world, so that a chain of setters stays small.  Meant for goals
    where the session has been destructed. *)
Ltac js_eval :=
  cbv [run after effects outcome dispatch click
       onSign onSubmit onVerify onSuccess sha256Hex
       Plain.onFileChange Styled.onFileChange Styled.onDrop Styled.onDrag
       Styled.onClearClick Styled.clearRendered
       signDisabled submitDisabled verifyDisabled
       bind ret when call emit lift try_catch try_finally prop template
       return_ throw update
       setHash setSig setUserAddr setStatus setTurnstileToken setRegisterResult
       setVerifyResult setDragActive setSelectedFileName
       with_hash with_sig with_userAddr with_status with_turnstileToken
       with_registerResult with_verifyResult with_dragActive
       with_selectedFileName workflow_cells
       hash sig userAddr status turnstileToken registerResult verifyResult
       dragActive selectedFileName store trace fst snd] in *.

Ltac js_go := js_eval; cbn in *; repeat (js_case; cbn in *; try discriminate).

(** Reduces the matches an answer has decided, and nothing else. *)
Ltac js_red := cbv beta iota zeta delta [negb orb andb].

(** The same for the handlers cut at their awaits. *)
Ltac async_eval :=
  cbv [Async.interleave Async.step Async.advance Async.atomic Async.waiting
       Async.start Async.one_at_a_time
       Async.cells Async.log Async.pending
       Async.dispatch Async.click Async.clearRendered
       Async.onSign Async.onSubmit Async.onVerify Async.onSuccess Async.sha256Hex
       Async.Plain.onFileChange Async.Styled.onFileChange Async.Styled.onDrop
       Async.Styled.onDrag Async.Styled.onClearClick
       Async.bind Async.ret Async.when Async.call Async.emit Async.lift
       Async.try_catch Async.try_finally Async.and_then Async.prop Async.template
       Async.return_ Async.throw Async.update
       Async.setHash Async.setSig Async.setUserAddr Async.setStatus
       Async.setTurnstileToken Async.setRegisterResult Async.setVerifyResult
       Async.setDragActive Async.setSelectedFileName
       nth_error firstn skipn app] in *.

(** Splits a membership in a concrete list into its cases. *)
Ltac in_cases I :=
  cbn in I;
  repeat match type of I with
         | _ \/ _ => destruct I as [I | I]
         | False => contradiction
         end.

(** Finishes a goal about booleans made of [truthy], [present] and string
    comparisons by cases. *)
Ltac bools :=
  repeat match goal with H : @eq bool _ _ |- _ => revert H end;
  rewrite ?String.eqb_refl;
  repeat match goal with
         | |- context [truthy ?x] => destruct (truthy x)
         | |- context [present ?x] => destruct (present x)
         | |- context [String.eqb ?x ?y] => destruct (String.eqb x y)
         | |- context [turnstileRef ?x] => destruct (turnstileRef x)
         end;
  cbn; intros; try discriminate; try reflexivity; auto.

(** Turns the tests a case analysis left behind into facts. *)
Ltac js_facts :=
  repeat match goal with
         | H : negb _ = false |- _ => apply negb_false_iff in H
         | H : negb _ = true |- _ => apply negb_true_iff in H
         | u : unit |- _ => destruct u
         end.

Lemma truthy_true (s : string) : truthy s = true <-> s <> "".
Proof.
  destruct s; simpl; split; intro H; try discriminate; try reflexivity.
  now exfalso; apply H.
Qed.

Lemma truthy_false (s : string) : truthy s = false <-> s = "".
Proof.
  destruct s; simpl; split; intro H; try discriminate; reflexivity.
Qed.

(** The demo states are the ones the handlers produce from [initial]. *)
Example ready_is_reached :
  after (fun r => Styled.onFileChange Demo.env r {| files := Some [Demo.file] |}) initial
  = Demo.ready.
Proof. reflexivity. Qed.

Example signed_is_reached :
  after (fun _ => onSuccess "tok-1") (after (onSign Demo.signing_env) Demo.ready)
  = Demo.signed.
Proof. reflexivity. Qed.

(** ** What each handler writes *)

(** [onVerify] writes [status] and [verifyResult], and never resets the
    widget. *)
Lemma onVerify_footprint (env : Env) (s : Session) :
  (exists st vr, after (onVerify env) s = with_status st (with_verifyResult vr s))
  /\ ~ In TurnstileReset (effects (onVerify env) s).
Proof.
  destruct s. js_run; (split; [do 2 eexists; reflexivity |]);
    intros F; simpl in F; intuition discriminate.
Qed.

(** [onSubmit] writes [status], [registerResult] and [turnstileToken]. *)
Lemma onSubmit_footprint (env : Env) (s : Session) :
  exists st rr tok,
    after (onSubmit env) s
    = with_status st (with_registerResult rr (with_turnstileToken tok s)).
Proof.
  destruct s. js_run; do 3 eexists; reflexivity.
Qed.

(** [onSign] writes [status], [userAddr] and [sig]. *)
Lemma onSign_footprint (env : Env) (s : Session) :
  exists st address signature,
    after (onSign env) s
    = with_status st (with_userAddr address (with_sig signature s)).
Proof.
  destruct s. js_run; do 3 eexists; reflexivity.
Qed.

(** The two guards of [onSubmit]: a missing cell makes it return with a
    message in [status] and nothing else done. *)
Lemma onSubmit_guard (env : Env) (s : Session) :
  hash s = "" \/ sig s = "" \/ turnstileToken s = "" ->
  exists message,
    (message = "Hash and signature required" \/ message = "Please complete the CAPTCHA")
    /\ run (onSubmit env) s = (Return, {| store := with_status message s; trace := [] |}).
Proof.
  intros H. unfold run, onSubmit.
  destruct (hash s) eqn:Eh; [eexists; split; [left; reflexivity | reflexivity] |].
  destruct (sig s) eqn:Es; [eexists; split; [left; reflexivity | reflexivity] |].
  destruct (turnstileToken s) eqn:Et; [eexists; split; [right; reflexivity | reflexivity] |].
  destruct H as [H | [H | H]]; discriminate.
Qed.

Lemma attestation_frame (v : View) (env : Env) (a : Action) (s : Session) :
  leaves_attestation a = true ->
  sig (after (dispatch v env a) s) = sig s
  /\ userAddr (after (dispatch v env a) s) = userAddr s.
Proof.
  destruct a; simpl; try discriminate; intros _.
  - unfold after, run, dispatch, click.
    destruct (submitDisabled s); [split; reflexivity |].
    destruct (onSubmit_footprint env s) as (st & rr & tok & E).
    unfold after, run in E. rewrite E. split; reflexivity.
  - unfold after, run, dispatch, click.
    destruct (verifyDisabled s); [split; reflexivity |].
    destruct (proj1 (onVerify_footprint env s)) as (st & vr & E).
    unfold after, run in E. rewrite E. split; reflexivity.
  - split; reflexivity.
  - destruct v; js_unfold; simpl; [split; reflexivity |].
    repeat (js_case; simpl); split; reflexivity.
  - destruct v; js_unfold; simpl; [split; reflexivity |].
    destruct (negb (Styled.clearRendered s)); split; reflexivity.
Qed.

(** ** The signed message *)

(** C9.  [buildSignedMessage] returns, for every fingerprint [f], the fixed
    wording "Proof Insight: register file hash " followed by [f] itself: the
    wording is a prefix of the result, its 34 characters are followed by
    exactly [f], and equal fingerprints give equal messages.  The function
    reads no state and calls nothing: it is a plain function on strings,
    defined on every string. *)
Theorem buildSignedMessage_template (f : string) :
  buildSignedMessage f = "Proof Insight: register file hash " ++ f
  /\ String.length (buildSignedMessage f) = 34 + String.length f
  /\ prefix "Proof Insight: register file hash " (buildSignedMessage f) = true
  /\ substring 34 (String.length f) (buildSignedMessage f) = f
  /\ (forall g, f = g -> buildSignedMessage f = buildSignedMessage g).
Proof.
  unfold buildSignedMessage.
  repeat split.
  - induction f as [| c f IH]; simpl; [reflexivity | now rewrite <- IH].
  - induction f as [| c f IH]; simpl in *; [reflexivity | now rewrite IH].
  - now intros g ->.
Qed.

Lemma buildSignedMessage_template_witness :
  buildSignedMessage "0x2cf2" = "Proof Insight: register file hash 0x2cf2"
  /\ buildSignedMessage "0x2cf2" = buildSignedMessage "0x2cf2".
Proof.
  split.
  - exact (proj1 (buildSignedMessage_template "0x2cf2")).
  - exact (proj2 (proj2 (proj2 (proj2 (buildSignedMessage_template "0x2cf2"))))
             "0x2cf2" eq_refl).
Defined.

(** [onSign] hands the wallet exactly that message, built from the
    fingerprint it closed over. *)
Lemma onSign_signs_the_template (env : Env) (s : Session) (address : string) :
  hash s <> "" -> ethereum env = true -> BrowserProvider env = Ok tt ->
  eth_requestAccounts env = Ok tt -> getSigner env = Ok tt ->
  getAddress env = Ok address ->
  effects (onSign env) s
  = [ProviderSend "eth_requestAccounts"; GetSigner; GetAddress;
     SignMessage (buildSignedMessage (hash s))].
Proof.
  intros Hh W P C G A. apply truthy_true in Hh.
  destruct s. js_eval. rewrite Hh, W, P, C, G, A. cbn.
  destruct (signMessage env _); reflexivity.
Qed.

(** ** File selection *)

(** C1, as the code has it.  In both views [onFileChange] ends with [sig]
    empty and with [registerResult] and [verifyResult] [null], whatever the
    state before; [hash] is emptied and then holds the digest of the new
    file when one was selected and hashed, and is empty otherwise;
    [userAddr] and [turnstileToken] are not written. *)
Theorem onFileChange_resets (v : View) (env : Env) (s : Session) (e : ChangeEvent) :
  sig (after (dispatch v env (ChooseFile e)) s) = ""
  /\ registerResult (after (dispatch v env (ChooseFile e)) s) = Null
  /\ verifyResult (after (dispatch v env (ChooseFile e)) s) = Null
  /\ hash (after (dispatch v env (ChooseFile e)) s) = selected_hash env e
  /\ userAddr (after (dispatch v env (ChooseFile e)) s) = userAddr s
  /\ turnstileToken (after (dispatch v env (ChooseFile e)) s) = turnstileToken s.
Proof.
  unfold selected_hash, subtle_digest. destruct s.
  destruct v; js_eval;
    destruct (first_file e) as [f |]; cbn;
    try (destruct (arrayBuffer f) as [data | m]; cbn;
         [destruct (crypto_subtle env) as [digest |]; cbn;
          [destruct (digest data); cbn |] |]);
    repeat split.
Qed.

(** C1 as stated fails: a file is chosen in a signed session.  [sig],
    [registerResult] and [verifyResult] are emptied, but [userAddr] still
    holds the wallet address and [hash] holds the digest of the chosen
    file. *)
Lemma onFileChange_keeps_userAddr :
  let s' := after (fun r => Plain.onFileChange Demo.env r {| files := Some [Demo.file] |})
                  Demo.signed in
  sig s' = "" /\ registerResult s' = Null /\ verifyResult s' = Null
  /\ userAddr s' = "0xA1"
  /\ hash s' = "0x00ff0a"
  /\ ~ (hash s' = "" /\ sig s' = "" /\ userAddr s' = ""
        /\ registerResult s' = Null /\ verifyResult s' = Null).
Proof.
  simpl. repeat split. intros (_ & _ & A & _). discriminate A.
Qed.

(** The address also survives a cancelled dialog, where no fingerprint is
    computed. *)
Remark cancelled_dialog_keeps_userAddr :
  let s' := after (fun r => Styled.onFileChange Demo.env r {| files := None |})
                  Demo.signed in
  hash s' = "" /\ sig s' = "" /\ userAddr s' = "0xA1".
Proof. simpl. repeat split. Qed.

(** ** Sign *)

(** C2, as the code has it.  Submit, verify, the widget's token, dragging
    and the clear control write neither [sig] nor [userAddr], so they keep
    "[userAddr] non-empty only if [sig] non-empty".  A sign attempt writes
    [sig] only when every step succeeded, and [userAddr] only once the
    wallet gave an address: it leaves both as they were when it returns at
    a guard (no fingerprint, no [window.ethereum]) and when the provider
    cannot be built or the account request, [getSigner] or [getAddress]
    fails.  A failure of [signMessage] (the user declines) comes after
    [setUserAddr]: [userAddr] then holds the wallet's address while [sig]
    is unchanged.  Every failure after the guards is reported in [status].
    A sign attempt that succeeds stores the address and the signature. *)
Theorem signer_address_discipline (v : View) (env : Env) (s : Session) :
  (forall a, leaves_attestation a = true ->
     address_implies_signature s ->
     address_implies_signature (after (dispatch v env a) s))
  /\ (sig (after (onSign env) s) = sig s
      \/ exists address signature,
           hash s <> "" /\ ethereum env = true /\ BrowserProvider env = Ok tt
           /\ eth_requestAccounts env = Ok tt /\ getSigner env = Ok tt
           /\ getAddress env = Ok address
           /\ signMessage env (buildSignedMessage (hash s)) = Ok signature
           /\ sig (after (onSign env) s) = signature
           /\ userAddr (after (onSign env) s) = address
           /\ status (after (onSign env) s) = "Signature obtained")
  /\ (userAddr (after (onSign env) s) = userAddr s
      \/ exists address,
           hash s <> "" /\ ethereum env = true /\ BrowserProvider env = Ok tt
           /\ eth_requestAccounts env = Ok tt /\ getSigner env = Ok tt
           /\ getAddress env = Ok address
           /\ userAddr (after (onSign env) s) = address)
  /\ (hash s = "" \/ ethereum env = false ->
      sig (after (onSign env) s) = sig s
      /\ userAddr (after (onSign env) s) = userAddr s)
  /\ (hash s <> "" -> ethereum env = true ->
      (forall m, BrowserProvider env = Err m ->
         sig (after (onSign env) s) = sig s
         /\ userAddr (after (onSign env) s) = userAddr s
         /\ status (after (onSign env) s) = "Error: " ++ m)
      /\ (forall m, BrowserProvider env = Ok tt -> eth_requestAccounts env = Err m ->
            sig (after (onSign env) s) = sig s
            /\ userAddr (after (onSign env) s) = userAddr s
            /\ status (after (onSign env) s) = "Error: " ++ m)
      /\ (forall m, BrowserProvider env = Ok tt -> eth_requestAccounts env = Ok tt ->
            getSigner env = Err m ->
            sig (after (onSign env) s) = sig s
            /\ userAddr (after (onSign env) s) = userAddr s
            /\ status (after (onSign env) s) = "Error: " ++ m)
      /\ (forall m, BrowserProvider env = Ok tt -> eth_requestAccounts env = Ok tt ->
            getSigner env = Ok tt -> getAddress env = Err m ->
            sig (after (onSign env) s) = sig s
            /\ userAddr (after (onSign env) s) = userAddr s
            /\ status (after (onSign env) s) = "Error: " ++ m)
      /\ (forall address m,
            BrowserProvider env = Ok tt -> eth_requestAccounts env = Ok tt ->
            getSigner env = Ok tt -> getAddress env = Ok address ->
            signMessage env (buildSignedMessage (hash s)) = Err m ->
            sig (after (onSign env) s) = sig s
            /\ userAddr (after (onSign env) s) = address
            /\ status (after (onSign env) s) = "Error: " ++ m)
      /\ (forall address signature,
            BrowserProvider env = Ok tt -> eth_requestAccounts env = Ok tt ->
            getSigner env = Ok tt -> getAddress env = Ok address ->
            signMessage env (buildSignedMessage (hash s)) = Ok signature ->
            sig (after (onSign env) s) = signature
            /\ userAddr (after (onSign env) s) = address
            /\ status (after (onSign env) s) = "Signature obtained")).
Proof.
  split; [| split; [| split; [| split]]].
  - intros a L I.
    destruct (attestation_frame v env a s L) as [Es Eu].
    unfold address_implies_signature in *. now rewrite Es, Eu.
  - destruct s. js_go; try (left; reflexivity).
    right. js_facts. do 2 eexists.
    repeat (split; [first [eassumption | reflexivity | now apply truthy_true] |]).
    reflexivity.
  - destruct s. js_go; try (left; reflexivity).
    all: right; js_facts; eexists;
      repeat (split; [first [eassumption | reflexivity | now apply truthy_true] |]);
      reflexivity.
  - destruct s. cbn. intros [E | E]; js_eval; rewrite E; cbn.
    + split; reflexivity.
    + match goal with |- context [truthy ?h] => destruct (truthy h) end;
        split; reflexivity.
  - intros Hh W. apply truthy_true in Hh. destruct s.
    repeat split; intros;
      js_eval; rewrite Hh, W; js_red;
      repeat match goal with H : _ = _ |- _ => rewrite H; js_red end;
      reflexivity.
Qed.

Lemma signer_address_discipline_witness :
  hash Demo.ready <> ""
  /\ ethereum Demo.env = true
  /\ BrowserProvider Demo.env = Ok tt
  /\ eth_requestAccounts Demo.env = Ok tt
  /\ getSigner Demo.env = Ok tt
  /\ getAddress Demo.env = Ok "0xA1"
  /\ signMessage Demo.env (buildSignedMessage (hash Demo.ready)) = Err "user rejected action"
  /\ sig (after (onSign Demo.env) Demo.ready) = sig Demo.ready
  /\ userAddr (after (onSign Demo.env) Demo.ready) = "0xA1"
  /\ status (after (onSign Demo.env) Demo.ready) = "Error: user rejected action".
Proof.
  split; [discriminate |].
  do 6 (split; [reflexivity |]).
  pose proof (proj2 (proj2 (proj2 (proj2
                (signer_address_discipline PlainView Demo.env Demo.ready))))
                ltac:(discriminate) eq_refl) as P.
  exact (proj1 (proj2 (proj2 (proj2 (proj2 P))))
           "0xA1" "user rejected action" eq_refl eq_refl eq_refl eq_refl eq_refl).
Defined.

(** C2 as stated fails: in the hashed, unsigned session the user connects
    the wallet and then declines the signature request.  Before, both fields
    are empty and the invariant holds; after, [sig] is still empty but
    [userAddr] is not. *)
Lemma onSign_rejection_sets_userAddr :
  let s' := after (onSign Demo.env) Demo.ready in
  sig Demo.ready = "" /\ userAddr Demo.ready = ""
  /\ address_implies_signature Demo.ready
  /\ sig s' = "" /\ userAddr s' = "0xA1"
  /\ ~ (sig s' = "" /\ userAddr s' = "")
  /\ ~ address_implies_signature s'.
Proof.
  simpl. repeat split.
  - intros A. now exfalso; apply A.
  - intros [_ A]. discriminate A.
  - intros I. apply I; [discriminate | reflexivity].
Qed.

(** C3.  Once [sig] is non-empty the Sign button is disabled in both views,
    so the sign action does nothing: the store is exactly as before (in
    particular [sig] and [userAddr]) and no call reaches the wallet.  The
    guard opens again only through a file selection, which empties [sig]. *)
Theorem sign_refused_once_signed (v : View) (env : Env) (s : Session) :
  sig s <> "" ->
  run (dispatch v env ClickSign) s = (Normal tt, {| store := s; trace := [] |})
  /\ (forall e, sig (after (dispatch v env (ChooseFile e)) s) = "").
Proof.
  intros Hs. apply truthy_true in Hs. split.
  - unfold run, dispatch, click, signDisabled. rewrite Hs.
    rewrite orb_true_r. reflexivity.
  - intros e. destruct v; js_run; reflexivity.
Qed.

Lemma sign_refused_once_signed_witness :
  sig Demo.signed <> ""
  /\ effects (dispatch PlainView Demo.signing_env ClickSign) Demo.signed = []
  /\ after (dispatch PlainView Demo.signing_env ClickSign) Demo.signed = Demo.signed.
Proof.
  split; [discriminate |].
  pose proof (proj1 (sign_refused_once_signed PlainView Demo.signing_env Demo.signed
                       ltac:(discriminate))) as P.
  unfold effects, after. rewrite P. split; reflexivity.
Defined.

(** The guard of C3 is the [disabled] attribute: the body of [onSign] tests
    [hash] and [window.ethereum] only, and run on its own in a signed state
    it asks the wallet again. *)
Remark onSign_body_does_not_test_sig :
  effects (onSign Demo.signing_env) Demo.signed
  = [ProviderSend "eth_requestAccounts"; GetSigner; GetAddress;
     SignMessage "Proof Insight: register file hash 0x00ff0a"].
Proof. reflexivity. Qed.

(** ** Submit *)

(** C4.  When [hash], [sig] or [turnstileToken] is empty, [onSubmit] returns
    before its [try] block: no call leaves the component (no request to the
    worker, no reset of the widget), [status] carries one of the two
    precondition messages, and every other cell, [registerResult] among
    them, keeps its value. *)
Theorem onSubmit_precondition (env : Env) (s : Session) :
  hash s = "" \/ sig s = "" \/ turnstileToken s = "" ->
  effects (onSubmit env) s = []
  /\ outcome (onSubmit env) s = Return
  /\ (status (after (onSubmit env) s) = "Hash and signature required"
      \/ status (after (onSubmit env) s) = "Please complete the CAPTCHA")
  /\ registerResult (after (onSubmit env) s) = registerResult s
  /\ turnstileToken (after (onSubmit env) s) = turnstileToken s
  /\ hash (after (onSubmit env) s) = hash s
  /\ sig (after (onSubmit env) s) = sig s
  /\ userAddr (after (onSubmit env) s) = userAddr s
  /\ verifyResult (after (onSubmit env) s) = verifyResult s.
Proof.
  intros H.
  destruct (onSubmit_guard env s H) as (message & M & R).
  unfold effects, outcome, after. rewrite R. simpl.
  repeat split. exact M.
Qed.

Lemma onSubmit_precondition_witness :
  turnstileToken Demo.no_token = ""
  /\ effects (onSubmit Demo.env) Demo.no_token = []
  /\ status (after (onSubmit Demo.env) Demo.no_token) = "Please complete the CAPTCHA"
  /\ registerResult (after (onSubmit Demo.env) Demo.no_token) = registerResult Demo.no_token.
Proof.
  split; [reflexivity |].
  pose proof (onSubmit_precondition Demo.env Demo.no_token
                (or_intror (or_intror eq_refl))) as P.
  split; [exact (proj1 P) |].
  split; [reflexivity | exact (proj1 (proj2 (proj2 (proj2 P))))].
Defined.

(** C5, as the code has it.  A submission that passes the local checks
    starts with the POST to the worker and then, whether the worker accepts,
    answers with an error status, answers with something that is not JSON,
    or cannot be reached, runs the [finally] block: [turnstileToken] is
    empty afterwards and, with the widget attached to [turnstileRef], the
    widget is told to reset.  An [onSubmit] started from the state the
    attempt ends in makes no call at all.  Until the attempt has ended the
    token is still in its cell and the Submit button still enabled: a
    second click while the first request is pending sends a second POST with
    the same token. *)
Theorem onSubmit_consumes_token (env : Env) (s : Session) :
  hash s <> "" -> sig s <> "" -> turnstileToken s <> "" ->
  (exists rest, effects (onSubmit env) s = Fetch (submitRequest env s) :: rest)
  /\ turnstileToken (after (onSubmit env) s) = ""
  /\ (turnstileRef env = true -> In TurnstileReset (effects (onSubmit env) s))
  /\ (forall env', effects (onSubmit env') (after (onSubmit env) s) = [])
  /\ (forall v env',
      Async.log (Async.interleave v
                   [Async.Act env ClickSubmit; Async.Act env' ClickSubmit]
                   (Async.start s))
      = [Fetch (submitRequest env s); Fetch (submitRequest env' s)]).
Proof.
  intros Hh Hs Ht.
  apply truthy_true in Hh, Hs, Ht.
  assert (T : turnstileToken (after (onSubmit env) s) = "").
  { destruct s. js_eval. rewrite Hh, Hs, Ht. js_red.
    repeat (js_case; cbn); reflexivity. }
  split; [| split; [exact T | split; [| split]]].
  - destruct s. js_eval. rewrite Hh, Hs, Ht. js_red.
    repeat (js_case; cbn); eexists; reflexivity.
  - intros R. destruct s. js_eval. rewrite Hh, Hs, Ht, R. js_red.
    repeat (js_case; cbn); intuition.
  - intros env'.
    destruct (onSubmit_guard env' (after (onSubmit env) s)
                (or_intror (or_intror T))) as (message & _ & R).
    unfold effects. now rewrite R.
  - intros v env'. destruct s. unfold submitRequest.
    async_eval. js_eval. repeat (progress (rewrite ?Hh, ?Hs, ?Ht); js_red).
    reflexivity.
Qed.

Lemma onSubmit_consumes_token_witness :
  hash Demo.signed <> "" /\ sig Demo.signed <> ""
  /\ turnstileToken Demo.signed = "tok-1"
  /\ turnstileToken (after (onSubmit Demo.env) Demo.signed) = ""
  /\ In TurnstileReset (effects (onSubmit Demo.env) Demo.signed)
  /\ effects (onSubmit Demo.env) (after (onSubmit Demo.env) Demo.signed) = [].
Proof.
  split; [discriminate |].
  split; [discriminate |].
  split; [reflexivity |].
  pose proof (onSubmit_consumes_token Demo.env Demo.signed
                ltac:(discriminate) ltac:(discriminate) ltac:(discriminate)) as P.
  split; [exact (proj1 (proj2 P)) |].
  split; [exact (proj1 (proj2 (proj2 P)) eq_refl)
         | exact (proj1 (proj2 (proj2 (proj2 P))) Demo.env)].
Defined.

(** C5 as stated fails: in the signed session holding the token "tok-1",
    Submit is clicked, and clicked again before the worker has answered.
    Both clicks find the button enabled and both handlers pass the guards:
    two POSTs leave, and the second carries the token of the first. *)
Lemma submit_clicked_twice_sends_the_token_twice :
  let sys := Async.interleave PlainView
               [Async.Act Demo.env ClickSubmit; Async.Act Demo.env ClickSubmit]
               (Async.start Demo.signed) in
  Async.log sys
  = [Fetch (submitRequest Demo.env Demo.signed);
     Fetch (submitRequest Demo.env Demo.signed)]
  /\ body (submitRequest Demo.env Demo.signed)
     = Some (Obj [("fileHash", Str "0x00ff0a"); ("signature", Str "0x5167");
                  ("user", Str "0xA1"); ("turnstileToken", Str "tok-1")])
  /\ turnstileToken (Async.cells sys) = "tok-1"
  /\ List.length (Async.pending sys) = 2.
Proof. vm_compute. repeat split. Qed.

(** C6, as the code has it.  When the worker answers a submission with a
    status outside 2xx, [registerResult] is [null] afterwards, whatever it
    held before and whatever the body of the answer: the record of an
    earlier submission is dropped when the attempt starts.
    [turnstileToken] is empty, and [hash], [sig], [userAddr] and
    [verifyResult] keep their values.  When the body is a JSON object,
    [status] becomes "Error: " followed by the object's [error] written as
    text (the message itself when it is a non-empty string), or by the
    status text when [error] is missing or falsy; when [error] cannot be
    written as text, [status] carries the message of the TypeError. *)
Theorem onSubmit_service_error (env : Env) (s : Session) (res : Response) :
  hash s <> "" -> sig s <> "" -> turnstileToken s <> "" ->
  fetch env (submitRequest env s) = Ok res ->
  ok res = false ->
  registerResult (after (onSubmit env) s) = Null
  /\ turnstileToken (after (onSubmit env) s) = ""
  /\ hash (after (onSubmit env) s) = hash s
  /\ sig (after (onSubmit env) s) = sig s
  /\ userAddr (after (onSubmit env) s) = userAddr s
  /\ verifyResult (after (onSubmit env) s) = verifyResult s
  /\ (forall props message, json res = Ok (Obj props) ->
      or_string (lookup "error" props) (statusText res) = Some message ->
      status (after (onSubmit env) s) = "Error: " ++ message)
  /\ (forall props e, json res = Ok (Obj props) ->
      lookup "error" props = Some (Str e) -> e <> "" ->
      status (after (onSubmit env) s) = "Error: " ++ e)
  /\ (forall props, json res = Ok (Obj props) ->
      or_string (lookup "error" props) (statusText res) = None ->
      status (after (onSubmit env) s) = "Error: " ++ not_primitive_message env).
Proof.
  intros Hh Hs Ht F K.
  apply truthy_true in Hh, Hs, Ht.
  assert (S : forall props, json res = Ok (Obj props) ->
              status (after (onSubmit env) s)
              = "Error: " ++ match or_string (lookup "error" props) (statusText res) with
                             | Some message => message
                             | None => not_primitive_message env
                             end).
  { intros props J. destruct s.
    js_eval. rewrite Hh, Hs, Ht. js_red. rewrite F. js_red. rewrite J, K. cbn.
    destruct (or_string (lookup "error" props) (statusText res));
      destruct (turnstileRef env); reflexivity. }
  assert (Fr : registerResult (after (onSubmit env) s) = Null
               /\ turnstileToken (after (onSubmit env) s) = ""
               /\ hash (after (onSubmit env) s) = hash s
               /\ sig (after (onSubmit env) s) = sig s
               /\ userAddr (after (onSubmit env) s) = userAddr s
               /\ verifyResult (after (onSubmit env) s) = verifyResult s).
  { destruct s. js_eval. rewrite Hh, Hs, Ht. js_red. rewrite F. js_red. rewrite K.
    repeat (js_case; cbn); repeat split. }
  destruct Fr as (F1 & F2 & F3 & F4 & F5 & F6).
  repeat (split; [assumption |]).
  split; [| split].
  - intros props message J O. now rewrite (S props J), O.
  - intros props e J L Ne. rewrite (S props J), L. cbn.
    apply truthy_true in Ne. now rewrite Ne.
  - intros props J O. now rewrite (S props J), O.
Qed.

Lemma onSubmit_service_error_witness :
  hash Demo.signed <> "" /\ sig Demo.signed <> "" /\ turnstileToken Demo.signed <> ""
  /\ ok {| ok := false; statusText := "Internal Server Error";
           json := Ok (Obj [("error", Str "rate limited")]) |} = false
  /\ registerResult (after (onSubmit Demo.env) Demo.signed) = Null
  /\ turnstileToken (after (onSubmit Demo.env) Demo.signed) = ""
  /\ status (after (onSubmit Demo.env) Demo.signed) = "Error: rate limited".
Proof.
  do 3 (split; [discriminate |]).
  split; [reflexivity |].
  pose proof (onSubmit_service_error Demo.env Demo.signed
                {| ok := false; statusText := "Internal Server Error";
                   json := Ok (Obj [("error", Str "rate limited")]) |}
                ltac:(discriminate) ltac:(discriminate) ltac:(discriminate)
                eq_refl eq_refl) as P.
  split; [exact (proj1 P) |].
  split; [exact (proj1 (proj2 P)) |].
  exact (proj1 (proj2 (proj2 (proj2 (proj2 (proj2 (proj2 (proj2 P)))))))
           [("error", Str "rate limited")] "rate limited" eq_refl eq_refl
           ltac:(discriminate)).
Defined.

(** C6 as stated fails: the session holds the record of an earlier
    submission and a fresh token; the worker answers the new submission
    with HTTP 500.  The record was there before and is gone afterwards: the
    state is not left as it was. *)
Lemma refused_submission_drops_the_earlier_record :
  let s := with_registerResult (Obj [("txHash", Str "0xabc")]) Demo.signed in
  hash s <> "" /\ sig s <> "" /\ turnstileToken s <> ""
  /\ registerResult s = Obj [("txHash", Str "0xabc")]
  /\ status (after (onSubmit Demo.env) s) = "Error: rate limited"
  /\ registerResult (after (onSubmit Demo.env) s) = Null
  /\ registerResult (after (onSubmit Demo.env) s) <> registerResult s.
Proof.
  vm_compute. repeat split; discriminate.
Qed.

(** ** Verify *)

(** C7.  Whatever the lookup answers (found, not found, an error status, a
    body that is not JSON, no network, a worker address the [URL]
    constructor refuses), [onVerify] leaves [hash], [sig], [userAddr],
    [turnstileToken] and [registerResult] as they were, as well as the two
    cells of the styled view, and it does not reset the verification widget:
    it writes [verifyResult] and [status] only. *)
Theorem onVerify_frame (env : Env) (s : Session) :
  hash (after (onVerify env) s) = hash s
  /\ sig (after (onVerify env) s) = sig s
  /\ userAddr (after (onVerify env) s) = userAddr s
  /\ turnstileToken (after (onVerify env) s) = turnstileToken s
  /\ registerResult (after (onVerify env) s) = registerResult s
  /\ dragActive (after (onVerify env) s) = dragActive s
  /\ selectedFileName (after (onVerify env) s) = selectedFileName s
  /\ ~ In TurnstileReset (effects (onVerify env) s).
Proof.
  destruct (onVerify_footprint env s) as [(st & vr & E) N].
  rewrite E. repeat split. exact N.
Qed.

(** C8, as the code has it.  [onVerify] asks the session for nothing but a
    fingerprint.  With [hash] empty it returns at once: no call leaves the
    component, [status] reads "Please select a file first" and
    [verifyResult] is not written.  With [hash] non-empty, and a worker
    address the [URL] constructor accepts, the first call it makes is the
    GET lookup carrying [hash] as the [hash] query parameter, whatever
    [sig], [userAddr] and [turnstileToken] hold.  With a worker address the
    constructor refuses (one that is not an absolute URL), no lookup is
    issued: [status] reports the constructor's message as a network error. *)
Theorem onVerify_precondition (env : Env) (s : Session) :
  (hash s = "" ->
     effects (onVerify env) s = []
     /\ outcome (onVerify env) s = Return
     /\ status (after (onVerify env) s) = "Please select a file first"
     /\ verifyResult (after (onVerify env) s) = verifyResult s)
  /\ (hash s <> "" ->
      forall u, new_URL env (WORKER_URL env) = Ok u ->
      exists rest,
        effects (onVerify env) s
        = Fetch (verifyRequest (searchParams_append u "hash" (hash s))) :: rest)
  /\ (hash s <> "" ->
      forall m, new_URL env (WORKER_URL env) = Err m ->
      effects (onVerify env) s = []
      /\ status (after (onVerify env) s) = "Network error: " ++ m).
Proof.
  split; [| split].
  - intros E. js_unfold. rewrite E. simpl. repeat split.
  - intros NE u U. apply truthy_true in NE.
    destruct s. js_eval. rewrite NE, U. js_red.
    repeat (js_case; cbn); eexists; reflexivity.
  - intros NE m U. apply truthy_true in NE.
    destruct s. js_eval. rewrite NE, U. js_red. split; reflexivity.
Qed.

(** C8 as stated fails: the worker address is the path "/api/proof", which
    passes the start-up check and which [fetch] accepts, but which the
    [URL] constructor refuses.  With a fingerprint in the session, Verify
    issues no lookup. *)
Lemma verify_with_a_relative_worker_address :
  let env :=
    {| WORKER_URL := "/api/proof";
       new_URL := fun _ => Err "Invalid URL";
       ethereum := ethereum Demo.env;
       BrowserProvider := BrowserProvider Demo.env;
       eth_requestAccounts := eth_requestAccounts Demo.env;
       getSigner := getSigner Demo.env;
       getAddress := getAddress Demo.env;
       signMessage := signMessage Demo.env;
       crypto_subtle := crypto_subtle Demo.env;
       fetch := fetch Demo.env;
       turnstileRef := turnstileRef Demo.env;
       null_property_message := null_property_message Demo.env;
       undefined_property_message := undefined_property_message Demo.env;
       not_primitive_message := not_primitive_message Demo.env;
       not_defined_message := not_defined_message Demo.env |} in
  hash Demo.ready <> ""
  /\ WORKER_URL env <> ""
  /\ effects (onVerify env) Demo.ready = []
  /\ status (after (onVerify env) Demo.ready) = "Network error: Invalid URL"
  /\ verifyResult (after (onVerify env) Demo.ready) = Null.
Proof.
  vm_compute. repeat split; discriminate.
Qed.

Lemma onVerify_precondition_witness :
  hash Demo.ready <> ""
  /\ sig Demo.ready = ""
  /\ userAddr Demo.ready = ""
  /\ turnstileToken Demo.ready = ""
  /\ new_URL Demo.env (WORKER_URL Demo.env)
     = Ok {| href := "https://worker.example/api"; searchParams := [] |}
  /\ (exists rest,
       effects (onVerify Demo.env) Demo.ready
       = Fetch {| method := "GET";
                  url := {| href := "https://worker.example/api";
                            searchParams := [("hash", "0x00ff0a")] |};
                  headers := [];
                  body := None |} :: rest)
  /\ effects (onVerify Demo.env) initial = [].
Proof.
  split; [discriminate |].
  do 4 (split; [reflexivity |]).
  split.
  - apply (proj1 (proj2 (onVerify_precondition Demo.env Demo.ready))
             ltac:(discriminate)
             {| href := "https://worker.example/api"; searchParams := [] |}
             eq_refl).
  - exact (proj1 (proj1 (onVerify_precondition Demo.env initial) eq_refl)).
Defined.

(** ** The clear-file control of the styled view *)

(** C10.  The [onClick] of the clear-file control empties
    [selectedFileName] and [hash] and writes nothing else: [sig],
    [userAddr], [turnstileToken], [registerResult], [verifyResult], [status]
    and [dragActive] keep their values, and nothing is asked of the outside.
    (Its third statement then throws, [fileInputRef] being unbound in this
    view; the two updates are already enqueued.)  So after choosing a file,
    signing it and clearing the file, the store holds the signature next to
    an empty fingerprint. *)
Theorem clear_file_frame (env : Env) (s : Session) :
  selectedFileName (after (fun _ => Styled.onClearClick env) s) = ""
  /\ hash (after (fun _ => Styled.onClearClick env) s) = ""
  /\ sig (after (fun _ => Styled.onClearClick env) s) = sig s
  /\ userAddr (after (fun _ => Styled.onClearClick env) s) = userAddr s
  /\ turnstileToken (after (fun _ => Styled.onClearClick env) s) = turnstileToken s
  /\ registerResult (after (fun _ => Styled.onClearClick env) s) = registerResult s
  /\ verifyResult (after (fun _ => Styled.onClearClick env) s) = verifyResult s
  /\ status (after (fun _ => Styled.onClearClick env) s) = status s
  /\ dragActive (after (fun _ => Styled.onClearClick env) s) = dragActive s
  /\ effects (fun _ => Styled.onClearClick env) s = []
  /\ outcome (fun _ => Styled.onClearClick env) s
     = Throw (not_defined_message env "fileInputRef")
  /\ sig (replay StyledView Demo.sign_then_clear initial) = "0x5167"
  /\ hash (replay StyledView Demo.sign_then_clear initial) = "".
Proof.
  repeat split.
Qed.

(** * Further properties of the code *)

(** ** Strings *)

Lemma length_append (a b : string) :
  String.length (a ++ b) = String.length a + String.length b.
Proof. induction a as [| c a IH]; simpl; [reflexivity | now rewrite IH]. Qed.

Lemma append_empty_r (a : string) : a ++ "" = a.
Proof. induction a as [| c a IH]; simpl; [reflexivity | now rewrite IH]. Qed.

Lemma append_assoc (a b c : string) : (a ++ b) ++ c = a ++ (b ++ c).
Proof. induction a as [| x a IH]; simpl; [reflexivity | now rewrite IH]. Qed.

Lemma concat_empty_cons (x : string) (xs : list string) :
  String.concat "" (x :: xs) = x ++ String.concat "" xs.
Proof.
  destruct xs as [| y ys]; simpl; [now rewrite append_empty_r | reflexivity].
Qed.

Lemma list_ascii_of_append (a b : string) :
  list_ascii_of_string (a ++ b)
  = (list_ascii_of_string a ++ list_ascii_of_string b)%list.
Proof. induction a as [| c a IH]; simpl; [reflexivity | now rewrite IH]. Qed.

(** An encoder that writes [n] characters per item writes [n] times the
    number of items. *)
Lemma concat_fixed_width {A} (f : A -> string) (n : nat) (l : list A) :
  (forall x, String.length (f x) = n) ->
  String.length (String.concat "" (map f l)) = n * List.length l.
Proof.
  intros W. induction l as [| x l IH]; [now rewrite Nat.mul_0_r |].
  rewrite map_cons, concat_empty_cons, length_append, W, IH.
  cbn [List.length]. now rewrite Nat.mul_succ_r, Nat.add_comm.
Qed.

(** An encoder whose items stay inside an alphabet stays inside it. *)
Lemma concat_alphabet {A} (f : A -> string) (p : ascii -> bool) (l : list A) :
  (forall x, forallb p (list_ascii_of_string (f x)) = true) ->
  forallb p (list_ascii_of_string (String.concat "" (map f l))) = true.
Proof.
  intros W. induction l as [| x l IH]; [reflexivity |].
  now rewrite map_cons, concat_empty_cons, list_ascii_of_append, forallb_app, W, IH.
Qed.

(** ** [hexFromBuffer] *)

(** Every byte is written as exactly two lower-case digits that name it. *)
Lemma byte_two_digits (b : byte) :
  exists c1 c2,
    padStart 2 "0" (toString16 (Byte.to_N b)) = String c1 (String c2 "")
    /\ is_lower_hex c1 = true /\ is_lower_hex c2 = true
    /\ bufferFromHex (String c1 (String c2 "")) = Some [b].
Proof.
  exists (hex_digit (Byte.to_N b / 16)), (hex_digit (Byte.to_N b mod 16)).
  destruct b; vm_compute; repeat split.
Qed.

Lemma hexFromBuffer_cons (b : byte) (rest : list byte) :
  hexFromBuffer (b :: rest)
  = padStart 2 "0" (toString16 (Byte.to_N b)) ++ hexFromBuffer rest.
Proof. unfold hexFromBuffer. rewrite map_cons. apply concat_empty_cons. Qed.

Lemma bufferFromHex_hexFromBuffer (buffer : list byte) :
  bufferFromHex (hexFromBuffer buffer) = Some buffer.
Proof.
  induction buffer as [| b rest IH]; [reflexivity |].
  rewrite hexFromBuffer_cons.
  destruct (byte_two_digits b) as (c1 & c2 & E & _ & _ & D).
  rewrite E. cbn [append]. cbn [bufferFromHex] in *. rewrite IH.
  destruct (position c1 hex_digits) as [h |]; [| discriminate].
  destruct (position c2 hex_digits) as [l |]; [| discriminate].
  destruct (Byte.of_N (16 * h + l)) as [b' |]; [| discriminate].
  simpl in *. now inversion D.
Qed.

(** X1.  [hexFromBuffer] writes two characters per byte: a byte below 16 is
    padded with a zero, so the width never depends on the values. *)
Theorem hexFromBuffer_length (buffer : list byte) :
  String.length (hexFromBuffer buffer) = 2 * List.length buffer.
Proof.
  apply concat_fixed_width. intros b.
  destruct (byte_two_digits b) as (c1 & c2 & E & _). now rewrite E.
Qed.

(** X2.  [hexFromBuffer] writes nothing but the digits 0-9 and a-f, in
    lower case. *)
Theorem hexFromBuffer_lower_hex (buffer : list byte) :
  forallb is_lower_hex (list_ascii_of_string (hexFromBuffer buffer)) = true.
Proof.
  apply concat_alphabet. intros b.
  destruct (byte_two_digits b) as (c1 & c2 & E & H1 & H2 & _).
  rewrite E. cbn [list_ascii_of_string forallb]. now rewrite H1, H2.
Qed.

(** X3.  [hexFromBuffer] loses nothing: two buffers are written the same
    way only if they are the same buffer. *)
Theorem hexFromBuffer_injective (a b : list byte) :
  hexFromBuffer a = hexFromBuffer b <-> a = b.
Proof.
  split; [| now intros ->].
  intros E.
  pose proof (bufferFromHex_hexFromBuffer a) as Da.
  rewrite E, bufferFromHex_hexFromBuffer in Da. now inversion Da.
Qed.

Lemma hexFromBuffer_injective_witness :
  hexFromBuffer [x0a; xff]%byte = hexFromBuffer [x0a; xff]%byte
  /\ [x0a; xff]%byte = [x0a; xff]%byte.
Proof.
  split; [reflexivity |].
  exact (proj1 (hexFromBuffer_injective [x0a; xff]%byte [x0a; xff]%byte) eq_refl).
Defined.

(** X4.  Writing a buffer in two parts gives the two writings one after
    the other. *)
Theorem hexFromBuffer_app (a b : list byte) :
  hexFromBuffer (a ++ b)%list = hexFromBuffer a ++ hexFromBuffer b.
Proof.
  induction a as [| x a IH]; [reflexivity |].
  rewrite <- app_comm_cons, !hexFromBuffer_cons, IH. now rewrite append_assoc.
Qed.

(** ** [sha256Hex] *)

(** X5.  When the file can be read and digested, [sha256Hex] asks for the
    SHA-256 digest of exactly the bytes it read, writes no cell, and returns
    "0x" followed by two lower-case digits per digest byte: 66 characters
    for a digest of 32 bytes. *)
Theorem sha256Hex_fingerprint
  (env : Env) (file : File) (w : World) (data digest : list byte) :
  arrayBuffer file = Ok data ->
  subtle_digest env data = Ok digest ->
  sha256Hex env file w
  = (Normal ("0x" ++ hexFromBuffer digest),
     {| store := store w;
        trace := ((trace w ++ [ReadFile (name file)])
                    ++ [SubtleDigest "SHA-256" data])%list |})
  /\ String.length ("0x" ++ hexFromBuffer digest) = 2 + 2 * List.length digest
  /\ forallb is_lower_hex (list_ascii_of_string (hexFromBuffer digest)) = true
  /\ (List.length digest = 32 -> String.length ("0x" ++ hexFromBuffer digest) = 66).
Proof.
  intros A D.
  assert (L : String.length ("0x" ++ hexFromBuffer digest) = 2 + 2 * List.length digest).
  { rewrite length_append. unfold hexFromBuffer.
    rewrite (concat_fixed_width _ 2); [reflexivity |].
    intros b. destruct (byte_two_digits b) as (c1 & c2 & E & _). now rewrite E. }
  split; [| split; [exact L | split]].
  - unfold subtle_digest in D.
    destruct (crypto_subtle env) as [primitive |] eqn:P; [| discriminate D].
    js_unfold. rewrite A. simpl. rewrite P. simpl. rewrite D. reflexivity.
  - apply concat_alphabet. intros b.
    destruct (byte_two_digits b) as (c1 & c2 & E & H1 & H2 & _).
    rewrite E. cbn [list_ascii_of_string forallb]. now rewrite H1, H2.
  - intros N. rewrite L, N. reflexivity.
Qed.

Lemma sha256Hex_fingerprint_witness :
  arrayBuffer Demo.file = Ok ["h"]%byte
  /\ subtle_digest Demo.env ["h"]%byte = Ok [x00; xff; x0a]%byte
  /\ fst (sha256Hex Demo.env Demo.file {| store := initial; trace := [] |})
     = Normal "0x00ff0a".
Proof.
  do 2 (split; [reflexivity |]).
  pose proof (proj1 (sha256Hex_fingerprint Demo.env Demo.file
                       {| store := initial; trace := [] |}
                       ["h"]%byte [x00; xff; x0a]%byte eq_refl eq_refl)) as P.
  rewrite P. reflexivity.
Defined.

(** X6.  [sha256Hex] stops at the first failure and passes its message on.
    A file that cannot be read is never handed to the digest primitive.
    Where [crypto.subtle] is missing, the TypeError of reading [digest] is
    thrown after the read and no digest call is made.  A digest that is
    called and fails leaves the two calls in the log.  In no case is a cell
    written. *)
Theorem sha256Hex_failure (env : Env) (file : File) (w : World) :
  (forall m, arrayBuffer file = Err m ->
     sha256Hex env file w
     = (Throw m, {| store := store w;
                    trace := (trace w ++ [ReadFile (name file)])%list |}))
  /\ (forall data, arrayBuffer file = Ok data -> crypto_subtle env = None ->
      sha256Hex env file w
      = (Throw (undefined_property_message env "digest"),
         {| store := store w;
            trace := (trace w ++ [ReadFile (name file)])%list |}))
  /\ (forall data primitive m, arrayBuffer file = Ok data ->
      crypto_subtle env = Some primitive -> primitive data = Err m ->
      sha256Hex env file w
      = (Throw m, {| store := store w;
                     trace := ((trace w ++ [ReadFile (name file)])
                                 ++ [SubtleDigest "SHA-256" data])%list |})).
Proof.
  split; [| split].
  - intros m A. js_unfold. rewrite A. reflexivity.
  - intros data A P. js_unfold. rewrite A. simpl. rewrite P. reflexivity.
  - intros data primitive m A P D. js_unfold. rewrite A. simpl. rewrite P. simpl.
    rewrite D. reflexivity.
Qed.

Lemma sha256Hex_failure_witness :
  arrayBuffer {| name := "gone.bin"; arrayBuffer := Err "NotReadableError" |}
  = Err "NotReadableError"
  /\ sha256Hex Demo.env {| name := "gone.bin"; arrayBuffer := Err "NotReadableError" |}
       {| store := initial; trace := [] |}
     = (Throw "NotReadableError", {| store := initial; trace := [ReadFile "gone.bin"] |}).
Proof.
  split; [reflexivity |].
  exact (proj1 (sha256Hex_failure Demo.env
                  {| name := "gone.bin"; arrayBuffer := Err "NotReadableError" |}
                  {| store := initial; trace := [] |})
           "NotReadableError" eq_refl).
Defined.

(** ** File selection, drag and drop *)

(** X7.  What a file selection reports, in both views.  With no file (a
    cancelled dialog, an empty list) [status] is emptied and nothing outside
    is called.  A file that cannot be read gives "Error: " and the message,
    and the digest is not asked for.  A digest that fails, or that is not
    there to be called, gives "Error: " and the message too; the digest
    call is in the log only where [crypto.subtle] exists.  Success gives
    "Ready to sign" after one read and one digest call.  The handler
    recovers every failure: it always completes normally. *)
Theorem onFileChange_status (v : View) (env : Env) (s : Session) (e : ChangeEvent) :
  outcome (dispatch v env (ChooseFile e)) s = Normal tt
  /\ (first_file e = None ->
      status (after (dispatch v env (ChooseFile e)) s) = ""
      /\ effects (dispatch v env (ChooseFile e)) s = [])
  /\ (forall f m, first_file e = Some f -> arrayBuffer f = Err m ->
      status (after (dispatch v env (ChooseFile e)) s) = "Error: " ++ m
      /\ effects (dispatch v env (ChooseFile e)) s = [ReadFile (name f)])
  /\ (forall f data m, first_file e = Some f -> arrayBuffer f = Ok data ->
      subtle_digest env data = Err m ->
      status (after (dispatch v env (ChooseFile e)) s) = "Error: " ++ m
      /\ effects (dispatch v env (ChooseFile e)) s
         = ReadFile (name f)
           :: match crypto_subtle env with
              | Some _ => [SubtleDigest "SHA-256" data]
              | None => []
              end)
  /\ (forall f data digest, first_file e = Some f -> arrayBuffer f = Ok data ->
      subtle_digest env data = Ok digest ->
      status (after (dispatch v env (ChooseFile e)) s) = "Ready to sign"
      /\ effects (dispatch v env (ChooseFile e)) s
         = [ReadFile (name f); SubtleDigest "SHA-256" data]).
Proof.
  destruct s. unfold subtle_digest.
  split; [destruct v; js_go; reflexivity |].
  split; [intros F; destruct v; js_eval; rewrite F; split; reflexivity |].
  split; [intros f m F A; destruct v; js_eval; rewrite F, A; split; reflexivity |].
  split; intros f data x F A D; destruct v; js_eval; rewrite F, A; js_red;
    (destruct (crypto_subtle env) as [primitive |]; js_red;
     [rewrite D | try discriminate D; try (injection D as <-)]);
    split; reflexivity.
Qed.

Lemma onFileChange_status_witness :
  first_file {| files := Some [] |} = None
  /\ status (after (dispatch PlainView Demo.env (ChooseFile {| files := Some [] |}))
               Demo.signed) = ""
  /\ effects (dispatch PlainView Demo.env (ChooseFile {| files := Some [] |}))
       Demo.signed = [].
Proof.
  split; [reflexivity |].
  exact (proj1 (proj2 (onFileChange_status PlainView Demo.env Demo.signed
                         {| files := Some [] |})) eq_refl).
Defined.

(** X8.  The two views select a file in the same way: the seven shared
    cells, the calls made and the completion are equal.  The styled view
    also records the name of the chosen file (empty when there is none),
    whether or not hashing succeeds; neither view touches [dragActive], and
    the plain view leaves [selectedFileName] alone. *)
Theorem onFileChange_views_agree (env : Env) (s : Session) (e : ChangeEvent) :
  workflow_cells (after (fun r => Plain.onFileChange env r e) s)
  = workflow_cells (after (fun r => Styled.onFileChange env r e) s)
  /\ effects (fun r => Plain.onFileChange env r e) s
     = effects (fun r => Styled.onFileChange env r e) s
  /\ outcome (fun r => Plain.onFileChange env r e) s
     = outcome (fun r => Styled.onFileChange env r e) s
  /\ selectedFileName (after (fun r => Styled.onFileChange env r e) s)
     = match first_file e with Some f => name f | None => "" end
  /\ selectedFileName (after (fun r => Plain.onFileChange env r e) s)
     = selectedFileName s
  /\ dragActive (after (fun r => Plain.onFileChange env r e) s) = dragActive s
  /\ dragActive (after (fun r => Styled.onFileChange env r e) s) = dragActive s.
Proof.
  destruct s. js_go; repeat split.
Qed.

(** X9.  Drag and drop in the styled view.  A drag event writes
    [dragActive] and nothing else: entering or hovering sets it, leaving
    clears it, any other event type changes nothing.  A drop always ends the highlight; when
    it carries no file (no list, or an empty one) nothing else changes and
    nothing is called; when it carries one, the shared cells, the file name
    and the calls are those of choosing the same files through the input. *)
Theorem drag_and_drop (env : Env) (s : Session) :
  (forall type,
     exists b, after (dispatch StyledView env (DragOver type)) s = with_dragActive b s)
  /\ after (dispatch StyledView env (DragOver "dragenter")) s = with_dragActive true s
  /\ after (dispatch StyledView env (DragOver "dragover")) s = with_dragActive true s
  /\ after (dispatch StyledView env (DragOver "dragleave")) s = with_dragActive false s
  /\ (forall type, type <> "dragenter" -> type <> "dragover" -> type <> "dragleave" ->
      run (dispatch StyledView env (DragOver type)) s
      = (Normal tt, {| store := s; trace := [] |}))
  /\ (forall fs, dropped_file fs = None ->
      run (dispatch StyledView env (DropFiles fs)) s
      = (Normal tt, {| store := with_dragActive false s; trace := [] |}))
  /\ (forall fs f, dropped_file fs = Some f ->
      workflow_cells (after (dispatch StyledView env (DropFiles fs)) s)
      = workflow_cells (after (dispatch StyledView env (ChooseFile {| files := fs |})) s)
      /\ selectedFileName (after (dispatch StyledView env (DropFiles fs)) s) = name f
      /\ dragActive (after (dispatch StyledView env (DropFiles fs)) s) = false
      /\ effects (dispatch StyledView env (DropFiles fs)) s
         = effects (dispatch StyledView env (ChooseFile {| files := fs |})) s).
Proof.
  split; [| split; [| split; [| split; [| split; [| split]]]]]; try reflexivity.
  - intros type. destruct s. js_unfold. simpl.
    repeat (js_case; simpl); eexists; reflexivity.
  - intros type N1 N2 N3.
    apply String.eqb_neq in N1, N2, N3.
    unfold run, dispatch, Styled.onDrag. rewrite N1, N2, N3. reflexivity.
  - intros fs F. destruct fs as [[| f l] |]; try discriminate; reflexivity.
  - intros fs f F. destruct fs as [[| f' l] |]; try discriminate.
    cbv [dropped_file first_file files] in F. inversion F; subst.
    destruct s. js_go; repeat split.
Qed.

Lemma drag_and_drop_witness :
  dropped_file (Some []) = None
  /\ run (dispatch StyledView Demo.env (DropFiles (Some []))) Demo.signed
     = (Normal tt, {| store := with_dragActive false Demo.signed; trace := [] |}).
Proof.
  split; [reflexivity |].
  exact (proj1 (proj2 (proj2 (proj2 (proj2 (proj2 (drag_and_drop Demo.env Demo.signed))))))
           (Some []) eq_refl).
Defined.

(** ** Sign *)

(** X10.  The two guards of [onSign].  Without a fingerprint it returns
    with "No hash to sign"; with a fingerprint but no [window.ethereum] it
    returns with "MetaMask not found".  In both cases the wallet is not
    called and no other cell changes. *)
Theorem onSign_guards (env : Env) (s : Session) :
  (hash s = "" ->
     run (onSign env) s
     = (Return, {| store := with_status "No hash to sign" s; trace := [] |}))
  /\ (hash s <> "" -> ethereum env = false ->
      run (onSign env) s
      = (Return, {| store := with_status "MetaMask not found" s; trace := [] |})).
Proof.
  split.
  - intros E. unfold run, onSign. rewrite E. reflexivity.
  - intros N W. apply truthy_true in N.
    unfold run, onSign. rewrite N, W. reflexivity.
Qed.

Lemma onSign_guards_witness :
  hash initial = ""
  /\ run (onSign Demo.signing_env) initial
     = (Return, {| store := with_status "No hash to sign" initial; trace := [] |}).
Proof.
  split; [reflexivity |].
  exact (proj1 (onSign_guards Demo.signing_env initial) eq_refl).
Defined.

(** X11.  [onSign] talks to the wallet in a fixed order and stops at the
    first refusal: its calls are always a beginning of "request accounts,
    get signer, get address, sign the message built from the current
    fingerprint".  So the wallet is asked to sign only after it gave an
    address, and the message it is shown is never built from anything but
    [hash].  Whatever the wallet answers, [onSign] does not throw. *)
Theorem onSign_wallet_order (env : Env) (s : Session) :
  (exists n,
     effects (onSign env) s = firstn n (wallet_calls (buildSignedMessage (hash s))))
  /\ (forall message, In (SignMessage message) (effects (onSign env) s) ->
      message = buildSignedMessage (hash s)
      /\ exists address, getAddress env = Ok address
                         /\ userAddr (after (onSign env) s) = address)
  /\ (forall m, outcome (onSign env) s <> Throw m).
Proof.
  destruct s. split; [| split].
  - js_go;
      first [ now exists 0 | now exists 1 | now exists 2 | now exists 3 | now exists 4 ].
  - intros message. js_go; intros I; in_cases I; try discriminate I;
      injection I as <-; (split; [reflexivity | eexists; split; reflexivity]).
  - intros m. js_go; discriminate.
Qed.

Lemma onSign_wallet_order_witness :
  In (SignMessage "Proof Insight: register file hash 0x00ff0a")
    (effects (onSign Demo.env) Demo.ready)
  /\ "Proof Insight: register file hash 0x00ff0a" = buildSignedMessage (hash Demo.ready)
  /\ userAddr (after (onSign Demo.env) Demo.ready) = "0xA1".
Proof.
  assert (I : In (SignMessage "Proof Insight: register file hash 0x00ff0a")
                (effects (onSign Demo.env) Demo.ready)).
  { simpl. auto. }
  split; [exact I |].
  destruct (proj1 (proj2 (onSign_wallet_order Demo.env Demo.ready)) _ I) as [E _].
  split; [exact E | reflexivity].
Defined.

(** ** Who is called, and how a handler ends *)

(** X12.  Each action keeps to its own collaborators: selecting or
    dropping a file reads the file and the digest primitive only, Sign calls
    the wallet only, Submit the worker and the widget, Verify the worker
    only; the widget's callback, dragging and the clear control call
    nothing.  In particular Verify never touches the wallet or the widget,
    and Sign never reaches the network. *)
Theorem actions_keep_to_their_collaborators
  (v : View) (env : Env) (a : Action) (s : Session) (e : Effect) :
  In e (effects (dispatch v env a) s) ->
  may_call a (collaborator e) = true.
Proof.
  intros I.
  assert (A : forallb (fun x => may_call a (collaborator x))
                (effects (dispatch v env a) s) = true).
  { clear I. destruct s. destruct a, v; js_go; reflexivity. }
  rewrite forallb_forall in A. exact (A e I).
Qed.

Lemma actions_keep_to_their_collaborators_witness :
  In GetAddress (effects (dispatch PlainView Demo.env ClickSign) Demo.ready)
  /\ may_call ClickSign (collaborator GetAddress) = true.
Proof.
  assert (I : In GetAddress (effects (dispatch PlainView Demo.env ClickSign) Demo.ready)).
  { simpl. auto. }
  split; [exact I |].
  exact (actions_keep_to_their_collaborators PlainView Demo.env ClickSign Demo.ready
           GetAddress I).
Defined.

(** X13.  Every failure of the outside is recovered inside the handler: no
    action of the plain view ends in an exception, and in the styled view
    the only one that does is a click on the rendered clear control. *)
Theorem only_the_clear_control_throws
  (v : View) (env : Env) (a : Action) (s : Session) (m : string) :
  outcome (dispatch v env a) s = Throw m ->
  v = StyledView /\ a = ClickClear /\ selectedFileName s <> ""
  /\ m = not_defined_message env "fileInputRef".
Proof.
  destruct s. destruct a, v; js_go; intros T; try discriminate T.
  injection T as <-. repeat split.
  match goal with H : negb (truthy _) = false |- _ =>
    apply negb_false_iff, truthy_true in H; exact H end.
Qed.

Lemma only_the_clear_control_throws_witness :
  outcome (dispatch StyledView Demo.env ClickClear) Demo.signed
  = Throw "fileInputRef is not defined"
  /\ selectedFileName Demo.signed <> "".
Proof.
  split; [reflexivity |].
  exact (proj1 (proj2 (proj2 (only_the_clear_control_throws StyledView Demo.env ClickClear
                                Demo.signed "fileInputRef is not defined" eq_refl)))).
Defined.

(** ** Submit *)

(** X14.  A submission the worker accepts: with the three cells present,
    a 2xx answer and a JSON body, [registerResult] is that body, [status]
    reads "Success! Proof stored on-chain.", the token is consumed, and
    the calls are the POST, the reading of the body and the reset of the
    attached widget, in that order.  No other cell changes. *)
Theorem onSubmit_success (env : Env) (s : Session) (res : Response) (b : value) :
  hash s <> "" -> sig s <> "" -> turnstileToken s <> "" ->
  fetch env (submitRequest env s) = Ok res ->
  ok res = true ->
  json res = Ok b ->
  run (onSubmit env) s
  = (Normal tt,
     {| store := with_status "Success! Proof stored on-chain."
                   (with_registerResult b (with_turnstileToken "" s));
        trace := Fetch (submitRequest env s) :: ReadJson
                 :: (if turnstileRef env then [TurnstileReset] else []) |}).
Proof.
  intros Hh Hs Ht F K J. apply truthy_true in Hh, Hs, Ht.
  destruct s. js_eval. rewrite Hh, Hs, Ht. cbn. rewrite F. cbn. rewrite J. cbn.
  rewrite K. cbn. destruct (turnstileRef env); reflexivity.
Qed.

Lemma onSubmit_success_witness :
  let accepting :=
    with_fetch (fun _ => Ok {| ok := true; statusText := "OK";
                               json := Ok (Obj [("txHash", Str "0xabc");
                                                ("blockNumber", Num {| nonzero := true; printed := "123" |})]) |}) Demo.signing_env in
  hash Demo.signed <> "" /\ sig Demo.signed <> "" /\ turnstileToken Demo.signed <> ""
  /\ registerResult (after (onSubmit accepting) Demo.signed)
     = Obj [("txHash", Str "0xabc"); ("blockNumber", Num {| nonzero := true; printed := "123" |})]
  /\ status (after (onSubmit accepting) Demo.signed) = "Success! Proof stored on-chain."
  /\ turnstileToken (after (onSubmit accepting) Demo.signed) = "".
Proof.
  intros accepting. do 3 (split; [discriminate |]).
  pose proof (onSubmit_success accepting Demo.signed
                {| ok := true; statusText := "OK";
                   json := Ok (Obj [("txHash", Str "0xabc"); ("blockNumber", Num {| nonzero := true; printed := "123" |})]) |}
                (Obj [("txHash", Str "0xabc"); ("blockNumber", Num {| nonzero := true; printed := "123" |})])
                ltac:(discriminate) ltac:(discriminate) ltac:(discriminate)
                eq_refl eq_refl eq_refl) as P.
  unfold after. rewrite P. repeat split.
Defined.

(** X15.  A submission that does not get a readable answer.  When the
    request itself fails, [status] is "Error: " and the message, the body is
    never read, and there is no record; when the answer cannot be parsed as
    JSON, whatever its status code, the outcome is the same after the read.
    In both cases the token is consumed and the attached widget reset. *)
Theorem onSubmit_transport_failure (env : Env) (s : Session) :
  hash s <> "" -> sig s <> "" -> turnstileToken s <> "" ->
  (forall m, fetch env (submitRequest env s) = Err m ->
     run (onSubmit env) s
     = (Normal tt,
        {| store := with_status ("Error: " ++ m)
                      (with_registerResult Null (with_turnstileToken "" s));
           trace := Fetch (submitRequest env s)
                    :: (if turnstileRef env then [TurnstileReset] else []) |}))
  /\ (forall res m, fetch env (submitRequest env s) = Ok res -> json res = Err m ->
      run (onSubmit env) s
      = (Normal tt,
         {| store := with_status ("Error: " ++ m)
                       (with_registerResult Null (with_turnstileToken "" s));
            trace := Fetch (submitRequest env s) :: ReadJson
                     :: (if turnstileRef env then [TurnstileReset] else []) |})).
Proof.
  intros Hh Hs Ht. apply truthy_true in Hh, Hs, Ht. destruct s. split.
  - intros m F. js_eval. rewrite Hh, Hs, Ht. cbn. rewrite F. cbn.
    destruct (turnstileRef env); reflexivity.
  - intros res m F J. js_eval. rewrite Hh, Hs, Ht. cbn. rewrite F. cbn. rewrite J. cbn.
    destruct (turnstileRef env); reflexivity.
Qed.

Lemma onSubmit_transport_failure_witness :
  let offline :=
    with_fetch (fun _ => Err "Failed to fetch") Demo.signing_env in
  hash Demo.signed <> "" /\ sig Demo.signed <> "" /\ turnstileToken Demo.signed <> ""
  /\ status (after (onSubmit offline) Demo.signed) = "Error: Failed to fetch"
  /\ effects (onSubmit offline) Demo.signed
     = [Fetch (submitRequest offline Demo.signed); TurnstileReset].
Proof.
  intros offline. do 3 (split; [discriminate |]).
  pose proof (proj1 (onSubmit_transport_failure offline Demo.signed
                       ltac:(discriminate) ltac:(discriminate) ltac:(discriminate))
                "Failed to fetch" eq_refl) as P.
  unfold after, effects. rewrite P. split; reflexivity.
Defined.

(** X16.  No action repeats a request: whatever the answers, one action
    sends at most one [fetch].  A submission that passes the guards sends
    exactly one, the POST built from the cells the handler closed over. *)
Theorem at_most_one_request (v : View) (env : Env) (a : Action) (s : Session) :
  List.length (filter is_fetch (effects (dispatch v env a) s)) <= 1
  /\ (hash s <> "" -> sig s <> "" -> turnstileToken s <> "" ->
      filter is_fetch (effects (onSubmit env) s) = [Fetch (submitRequest env s)]).
Proof.
  split.
  - destruct s. destruct a, v; js_go; auto.
  - intros Hh Hs Ht. apply truthy_true in Hh, Hs, Ht.
    destruct s. js_eval. rewrite Hh, Hs, Ht. cbn.
    repeat (js_case; cbn); reflexivity.
Qed.

Lemma at_most_one_request_witness :
  hash Demo.signed <> "" /\ sig Demo.signed <> "" /\ turnstileToken Demo.signed <> ""
  /\ filter is_fetch (effects (onSubmit Demo.env) Demo.signed)
     = [Fetch (submitRequest Demo.env Demo.signed)].
Proof.
  do 3 (split; [discriminate |]).
  exact (proj2 (at_most_one_request PlainView Demo.env ClickSubmit Demo.signed)
           ltac:(discriminate) ltac:(discriminate) ltac:(discriminate)).
Defined.

(** ** Verify *)

(** X17.  A lookup the worker answers.  With a fingerprint, a worker
    address the [URL] constructor accepts, a 2xx answer and a JSON object,
    [verifyResult] is that object and [status] reads "Proof found." exactly
    when the object's [found] is truthy; an object without [found] reads
    "Proof not found.".  The calls are the GET and the reading of the body. *)
Theorem onVerify_lookup
  (env : Env) (s : Session) (u : URL) (res : Response) (props : list (string * value)) :
  hash s <> "" ->
  new_URL env (WORKER_URL env) = Ok u ->
  fetch env (verifyRequest (searchParams_append u "hash" (hash s))) = Ok res ->
  ok res = true ->
  json res = Ok (Obj props) ->
  run (onVerify env) s
  = (Normal tt,
     {| store := with_status
                   (if truthy_prop (lookup "found" props)
                    then "Verification complete: Proof found."
                    else "Verification complete: Proof not found.")
                   (with_verifyResult (Obj props) s);
        trace := [Fetch (verifyRequest (searchParams_append u "hash" (hash s)));
                  ReadJson] |})
  /\ (lookup "found" props = None ->
      status (after (onVerify env) s) = "Verification complete: Proof not found.").
Proof.
  intros Hh U F K J. apply truthy_true in Hh.
  assert (R : run (onVerify env) s
              = (Normal tt,
                 {| store := with_status
                               (if truthy_prop (lookup "found" props)
                                then "Verification complete: Proof found."
                                else "Verification complete: Proof not found.")
                               (with_verifyResult (Obj props) s);
                    trace := [Fetch (verifyRequest (searchParams_append u "hash" (hash s)));
                              ReadJson] |})).
  { destruct s. js_eval. rewrite Hh. cbn. rewrite U. cbn. rewrite F. cbn.
    rewrite J. cbn. rewrite K. cbn. reflexivity. }
  split; [exact R |].
  intros L. unfold after. rewrite R, L. reflexivity.
Qed.

Lemma onVerify_lookup_witness :
  let registry :=
    with_fetch (fun _ => Ok {| ok := true; statusText := "OK";
                               json := Ok (Obj [("found", Bool false)]) |}) Demo.env in
  hash Demo.ready <> ""
  /\ status (after (onVerify registry) Demo.ready)
     = "Verification complete: Proof not found."
  /\ verifyResult (after (onVerify registry) Demo.ready) = Obj [("found", Bool false)].
Proof.
  intros registry. split; [discriminate |].
  pose proof (proj1 (onVerify_lookup registry Demo.ready
                       {| href := "https://worker.example/api"; searchParams := [] |}
                       {| ok := true; statusText := "OK";
                          json := Ok (Obj [("found", Bool false)]) |}
                       [("found", Bool false)]
                       ltac:(discriminate) eq_refl eq_refl eq_refl eq_refl)) as P.
  unfold after. rewrite P. split; reflexivity.
Defined.

(** X18.  A lookup that fails always leaves [verifyResult] [null], so an
    earlier result is never shown next to the error.  A worker address the
    [URL] constructor refuses is reported as "Network error: " without any
    request being sent; a request that fails, or an answer that is not JSON,
    is a "Network error: " too; an answer outside 2xx with a JSON object is
    "Server error: " followed by its [error] written as text, or by the
    status text when [error] is missing or falsy; when [error] cannot be
    written as text, the TypeError is reported as a "Network error: ". *)
Theorem onVerify_failures (env : Env) (s : Session) :
  hash s <> "" ->
  (forall m, new_URL env (WORKER_URL env) = Err m ->
     run (onVerify env) s
     = (Normal tt, {| store := with_status ("Network error: " ++ m)
                                 (with_verifyResult Null s);
                      trace := [] |}))
  /\ (forall u m, new_URL env (WORKER_URL env) = Ok u ->
      fetch env (verifyRequest (searchParams_append u "hash" (hash s))) = Err m ->
      after (onVerify env) s
      = with_status ("Network error: " ++ m) (with_verifyResult Null s))
  /\ (forall u res m, new_URL env (WORKER_URL env) = Ok u ->
      fetch env (verifyRequest (searchParams_append u "hash" (hash s))) = Ok res ->
      json res = Err m ->
      after (onVerify env) s
      = with_status ("Network error: " ++ m) (with_verifyResult Null s))
  /\ (forall u res props message, new_URL env (WORKER_URL env) = Ok u ->
      fetch env (verifyRequest (searchParams_append u "hash" (hash s))) = Ok res ->
      ok res = false -> json res = Ok (Obj props) ->
      or_string (lookup "error" props) (statusText res) = Some message ->
      after (onVerify env) s
      = with_status ("Server error: " ++ message) (with_verifyResult Null s))
  /\ (forall u res props, new_URL env (WORKER_URL env) = Ok u ->
      fetch env (verifyRequest (searchParams_append u "hash" (hash s))) = Ok res ->
      ok res = false -> json res = Ok (Obj props) ->
      or_string (lookup "error" props) (statusText res) = None ->
      after (onVerify env) s
      = with_status ("Network error: " ++ not_primitive_message env)
          (with_verifyResult Null s)).
Proof.
  intros Hh. apply truthy_true in Hh. destruct s.
  split; [| split; [| split; [| split]]].
  - intros m U. js_eval. rewrite Hh. js_red. rewrite U. reflexivity.
  - intros u m U F. js_eval. rewrite Hh. js_red. rewrite U. js_red. rewrite F.
    reflexivity.
  - intros u res m U F J. js_eval. rewrite Hh. js_red. rewrite U. js_red.
    rewrite F. js_red. rewrite J. reflexivity.
  - intros u res props message U F K J O. js_eval. rewrite Hh. js_red.
    rewrite U. js_red. rewrite F. js_red. rewrite J. js_red. rewrite K. cbn.
    rewrite O. reflexivity.
  - intros u res props U F K J O. js_eval. rewrite Hh. js_red.
    rewrite U. js_red. rewrite F. js_red. rewrite J. js_red. rewrite K. cbn.
    rewrite O. reflexivity.
Qed.

Lemma onVerify_failures_witness :
  let misconfigured :=
    with_worker "/api/proof" (fun _ => Err "Invalid URL") Demo.env in
  hash Demo.ready <> ""
  /\ status (after (onVerify misconfigured) Demo.ready) = "Network error: Invalid URL"
  /\ effects (onVerify misconfigured) Demo.ready = [].
Proof.
  intros misconfigured. split; [discriminate |].
  pose proof (proj1 (onVerify_failures misconfigured Demo.ready ltac:(discriminate))
                "Invalid URL" eq_refl) as P.
  unfold after, effects. rewrite P. split; reflexivity.
Defined.

(** ** Answers whose JSON is [null] *)

(** X19.  A body that parses to [null] is not an object to read from.  On
    an accepted submission nothing is read from it: [status] reports success
    while [registerResult] is [null], so no record is shown.  On a refused
    one, reading [error] throws and [status] carries the engine's TypeError
    message instead of the status text.  On a lookup, reading [error] or
    [found] throws after [verifyResult] was set, and the TypeError is
    reported as a "Network error: ", for a 2xx answer as well. *)
Theorem null_body (env : Env) (s : Session) (res : Response) :
  json res = Ok Null ->
  (hash s <> "" -> sig s <> "" -> turnstileToken s <> "" ->
   fetch env (submitRequest env s) = Ok res ->
   registerResult (after (onSubmit env) s) = Null
   /\ status (after (onSubmit env) s)
      = (if ok res then "Success! Proof stored on-chain."
         else "Error: " ++ null_property_message env "error"))
  /\ (forall u, hash s <> "" -> new_URL env (WORKER_URL env) = Ok u ->
      fetch env (verifyRequest (searchParams_append u "hash" (hash s))) = Ok res ->
      verifyResult (after (onVerify env) s) = Null
      /\ status (after (onVerify env) s)
         = "Network error: "
           ++ null_property_message env (if ok res then "found" else "error")).
Proof.
  intros J. destruct s. split.
  - intros Hh Hs Ht F. apply truthy_true in Hh, Hs, Ht.
    js_eval. rewrite Hh, Hs, Ht. cbn. rewrite F. cbn. rewrite J. cbn.
    destruct (ok res); cbn; destruct (turnstileRef env); split; reflexivity.
  - intros u Hh U F. apply truthy_true in Hh.
    js_eval. rewrite Hh. cbn. rewrite U. cbn. rewrite F. cbn. rewrite J. cbn.
    destruct (ok res); split; reflexivity.
Qed.

Lemma null_body_witness :
  let empty_answer := {| ok := true; statusText := "OK"; json := Ok Null |} in
  let env :=
    with_fetch (fun _ => Ok empty_answer) Demo.env in
  json empty_answer = Ok Null
  /\ hash Demo.signed <> "" /\ sig Demo.signed <> "" /\ turnstileToken Demo.signed <> ""
  /\ registerResult (after (onSubmit env) Demo.signed) = Null
  /\ status (after (onSubmit env) Demo.signed) = "Success! Proof stored on-chain."
  /\ status (after (onVerify env) Demo.signed)
     = "Network error: Cannot read properties of null (reading 'found')".
Proof.
  intros empty_answer env. split; [reflexivity |].
  do 3 (split; [discriminate |]).
  pose proof (null_body env Demo.signed empty_answer eq_refl) as [P Q].
  specialize (P ltac:(discriminate) ltac:(discriminate) ltac:(discriminate) eq_refl).
  specialize (Q {| href := "https://worker.example/api"; searchParams := [] |}
                ltac:(discriminate) eq_refl eq_refl).
  split; [exact (proj1 P) | split; [exact (proj2 P) | exact (proj2 Q)]].
Defined.

(** ** Buttons *)

(** X20.  A disabled button does nothing at all: no cell changes, [status]
    included, and nothing is called.  So through the buttons a missing
    fingerprint is never answered by "Please select a file first" or "No
    hash to sign", and a missing signature or token never by a message
    either.  The Submit button does not look at [hash]: when [sig] and the
    token are there and [hash] is not, the click reaches [onSubmit], whose
    own guard answers "Hash and signature required" without any request. *)
Theorem disabled_buttons_are_silent (v : View) (env : Env) (s : Session) :
  (hash s = "" ->
     run (dispatch v env ClickVerify) s = (Normal tt, {| store := s; trace := [] |})
     /\ run (dispatch v env ClickSign) s = (Normal tt, {| store := s; trace := [] |}))
  /\ (sig s = "" \/ turnstileToken s = "" ->
      run (dispatch v env ClickSubmit) s = (Normal tt, {| store := s; trace := [] |}))
  /\ (hash s = "" -> sig s <> "" -> turnstileToken s <> "" ->
      run (dispatch v env ClickSubmit) s
      = (Return, {| store := with_status "Hash and signature required" s;
                    trace := [] |})).
Proof.
  split; [| split].
  - intros E. unfold run, dispatch, click, verifyDisabled, signDisabled.
    rewrite E. split; reflexivity.
  - intros [E | E]; unfold run, dispatch, click, submitDisabled; rewrite E; cbn;
      [reflexivity | now rewrite orb_true_r].
  - intros E Hs Ht. apply truthy_true in Hs, Ht.
    unfold run, dispatch, click, submitDisabled, onSubmit. rewrite E, Hs, Ht.
    reflexivity.
Qed.

Lemma disabled_buttons_are_silent_witness :
  turnstileToken Demo.no_token = ""
  /\ run (dispatch StyledView Demo.env ClickSubmit) Demo.no_token
     = (Normal tt, {| store := Demo.no_token; trace := [] |}).
Proof.
  split; [reflexivity |].
  exact (proj1 (proj2 (disabled_buttons_are_silent StyledView Demo.env Demo.no_token))
           (or_intror eq_refl)).
Defined.

(** ** Whole runs *)

Lemma present_true (v : value) : present v = true <-> v <> Null.
Proof.
  destruct v; cbn; split; intros H; try reflexivity; try discriminate.
  now exfalso; apply H.
Qed.

Lemma plain_step (env : Env) (a : Action) (s : Session) :
  plain_consistent s = true ->
  plain_consistent (after (dispatch PlainView env a) s) = true.
Proof.
  destruct s. unfold plain_consistent. destruct a; js_go; bools.
Qed.

Lemma plain_replay (steps : list (Env * Action)) (s : Session) :
  plain_consistent s = true ->
  plain_consistent (replay PlainView steps s) = true.
Proof.
  revert s. induction steps as [| [env a] rest IH]; intros s H; [exact H |].
  cbn [replay]. apply IH, plain_step, H.
Qed.

(** ** Runs of the component, handlers cut at their awaits *)

(** The two embeddings of a handler agree: run in one go, the handler cut
    at its awaits is the handler of the monad [M]. *)
Lemma dispatch_atomic (v : View) (env : Env) (a : Action) (r : Session) (w : World) :
  Async.atomic (Async.dispatch v env a r) w = dispatch v env a r w.
Proof.
  destruct r, w as [[] l]. destruct a, v; async_eval; js_go; reflexivity.
Qed.

(** A task adds to the log it is given and looks at nothing in it. *)
Lemma atomic_log {A} (t : Async.task A) (s : Session) (l : list Effect) :
  Async.atomic t {| store := s; trace := l |}
  = (fst (Async.atomic t {| store := s; trace := [] |}),
     {| store := store (snd (Async.atomic t {| store := s; trace := [] |}));
        trace := (l ++ trace (snd (Async.atomic t {| store := s; trace := [] |})))%list |}).
Proof.
  revert s l. induction t as [c | f rest IH | e rest IH | rest IH]; intros s l; cbn.
  - now rewrite app_nil_r.
  - apply IH.
  - rewrite (IH s (l ++ [e])%list), (IH s [e]). cbn. now rewrite <- app_assoc.
  - apply IH.
Qed.

(** Running a task piece by piece ends where running it in one go ends. *)
Lemma advance_atomic (t : Async.task unit) (s : Session) (l : list Effect) :
  snd (Async.atomic t {| store := s; trace := l |})
  = match Async.advance t s l with
    | (s', l', Some rest) => snd (Async.atomic rest {| store := s'; trace := l' |})
    | (s', l', None) => {| store := s'; trace := l' |}
    end.
Proof.
  revert s l. induction t as [c | f rest IH | e rest IH | rest IH]; intros s l; cbn.
  - reflexivity.
  - apply IH.
  - apply IH.
  - reflexivity.
Qed.

Lemma replay_app (v : View) (a b : list (Env * Action)) (s : Session) :
  replay v (a ++ b)%list s = replay v b (replay v a s).
Proof.
  revert s. induction a as [| [env x] a IH]; intros s; [reflexivity |].
  cbn [app replay]. apply IH.
Qed.

Lemma history_app (v : View) (a b : list (Env * Action)) (s : Session) :
  history v (a ++ b)%list s
  = (history v a s ++ history v b (replay v a s))%list.
Proof.
  revert s. induction a as [| [env x] a IH]; intros s; [reflexivity |].
  cbn [app history replay]. now rewrite IH, app_assoc.
Qed.

(** One action taken at rest is one step of [replay] once it has settled. *)
Lemma act_at_rest (v : View) (env : Env) (a : Action) (sys : Async.System) :
  Async.pending sys = [] ->
  List.length (Async.pending (Async.step v (Async.Act env a) sys)) <= 1
  /\ Async.settled (Async.step v (Async.Act env a) sys)
     = {| store := after (dispatch v env a) (Async.cells sys);
          trace := (Async.log sys ++ effects (dispatch v env a) (Async.cells sys))%list |}.
Proof.
  intros P. destruct sys as [s l p]. cbn in P. subst p.
  pose proof (advance_atomic (Async.dispatch v env a s) s l) as A.
  rewrite atomic_log, !dispatch_atomic in A. cbn [snd] in A.
  unfold Async.settled, Async.step. cbn [Async.cells Async.log Async.pending].
  destruct (Async.advance (Async.dispatch v env a s) s l) as [[s' l'] [rest |]];
    cbn [Async.cells Async.log Async.pending Async.waiting app List.length];
    (split; [auto |]); now rewrite <- A.
Qed.

(** What settles next changes nothing in where the component comes to
    rest. *)
Lemma settle_keeps_settled (v : View) (i : nat) (sys : Async.System) :
  List.length (Async.pending sys) <= 1 ->
  List.length (Async.pending (Async.step v (Async.Settle i) sys)) <= 1
  /\ Async.settled (Async.step v (Async.Settle i) sys) = Async.settled sys.
Proof.
  intros L. destruct sys as [s l [| t [| t' p]]]; cbn in L.
  - destruct i; cbn; auto.
  - destruct i as [| i]; cbn.
    + pose proof (advance_atomic t s l) as A.
      unfold Async.settled. cbn [Async.cells Async.log Async.pending].
      destruct (Async.advance t s l) as [[s' l'] [rest |]];
        cbn [Async.cells Async.log Async.pending Async.waiting app List.length];
        (split; [auto |]); now rewrite A.
    + destruct i; cbn; auto.
  - exfalso. inversion L as [| n L']. inversion L'.
Qed.

(** A run in which no action is taken while a handler waits comes to rest
    where the same actions, replayed one after the other, end. *)
Lemma one_at_a_time_replay
  (v : View) (events : list Async.Event) (sys : Async.System)
  (steps : list (Env * Action)) :
  List.length (Async.pending sys) <= 1 ->
  Async.settled sys
  = {| store := replay v steps initial; trace := history v steps initial |} ->
  Async.one_at_a_time v events sys = true ->
  exists steps',
    List.length (Async.pending (Async.interleave v events sys)) <= 1
    /\ Async.settled (Async.interleave v events sys)
       = {| store := replay v steps' initial; trace := history v steps' initial |}.
Proof.
  revert sys steps. induction events as [| ev events IH]; intros sys steps L S O.
  - exists steps. split; assumption.
  - cbn [Async.interleave]. cbn [Async.one_at_a_time] in O.
    destruct ev as [env a | i].
    + destruct (Async.pending sys) eqn:P; [| discriminate O].
      destruct (act_at_rest v env a sys P) as [L' S'].
      unfold Async.settled in S. rewrite P in S. injection S as Sc Sl.
      apply (IH _ (steps ++ [(env, a)])%list L'); [| exact O].
      rewrite S', replay_app, history_app, Sc, Sl. cbn [replay history].
      now rewrite app_nil_r.
    + destruct (settle_keeps_settled v i sys L) as [L' S'].
      apply (IH _ steps L'); [now rewrite S' |].
      destruct (Async.pending sys); exact O.
Qed.

(** An undisturbed run is a replay. *)
Lemma undisturbed_replay (v : View) (events : list Async.Event) :
  Async.undisturbed v events = true ->
  exists steps,
    Async.cells (Async.run v events) = replay v steps initial
    /\ Async.log (Async.run v events) = history v steps initial.
Proof.
  unfold Async.undisturbed. intros U. apply andb_prop in U as [O R].
  destruct (one_at_a_time_replay v events (Async.start initial) []
              (le_S _ _ (le_n 0)) eq_refl O) as (steps & _ & S).
  exists steps. fold (Async.run v events) in S.
  unfold Async.settled in S.
  destruct (Async.pending (Async.run v events)); [| discriminate R].
  injection S as Sc Sl. split; assumption.
Qed.

(** X21.  In the plain view, in a run in which the user lets each handler
    finish before acting again, the cells are consistent whenever the
    component is at rest, whatever the outside answers: a stored signature
    has a fingerprint beside it, a registration record has a signature and a
    fingerprint, and a lookup result has a fingerprint.  (An action taken
    while a handler waits can break each of the three, and so can the clear
    control of the styled view.) *)
Theorem plain_view_stays_consistent (events : list Async.Event) :
  Async.undisturbed PlainView events = true ->
  (sig (Async.cells (Async.run PlainView events)) <> ""
   -> hash (Async.cells (Async.run PlainView events)) <> "")
  /\ (registerResult (Async.cells (Async.run PlainView events)) <> Null
      -> sig (Async.cells (Async.run PlainView events)) <> ""
         /\ hash (Async.cells (Async.run PlainView events)) <> "")
  /\ (verifyResult (Async.cells (Async.run PlainView events)) <> Null
      -> hash (Async.cells (Async.run PlainView events)) <> "").
Proof.
  intros U. destruct (undisturbed_replay PlainView events U) as (steps & -> & _).
  pose proof (plain_replay steps initial eq_refl) as H.
  unfold plain_consistent in H.
  apply andb_prop in H as [H V]. apply andb_prop in H as [S R].
  assert (S' : sig (replay PlainView steps initial) <> ""
               -> hash (replay PlainView steps initial) <> "").
  { intros N. apply truthy_true in N. rewrite N in S. now apply truthy_true. }
  split; [exact S' | split].
  - intros N. apply present_true in N. rewrite N in R.
    assert (G : sig (replay PlainView steps initial) <> "") by now apply truthy_true.
    split; [exact G | exact (S' G)].
  - intros N. apply present_true in N. rewrite N in V. now apply truthy_true.
Qed.

Lemma plain_view_stays_consistent_witness :
  Async.undisturbed PlainView
    [Async.Act Demo.signing_env (ChooseFile {| files := Some [Demo.file] |});
     Async.Settle 0; Async.Settle 0;
     Async.Act Demo.signing_env ClickSign;
     Async.Settle 0; Async.Settle 0; Async.Settle 0; Async.Settle 0] = true
  /\ sig (Async.cells (Async.run PlainView
            [Async.Act Demo.signing_env (ChooseFile {| files := Some [Demo.file] |});
             Async.Settle 0; Async.Settle 0;
             Async.Act Demo.signing_env ClickSign;
             Async.Settle 0; Async.Settle 0; Async.Settle 0; Async.Settle 0])) <> ""
  /\ hash (Async.cells (Async.run PlainView
            [Async.Act Demo.signing_env (ChooseFile {| files := Some [Demo.file] |});
             Async.Settle 0; Async.Settle 0;
             Async.Act Demo.signing_env ClickSign;
             Async.Settle 0; Async.Settle 0; Async.Settle 0; Async.Settle 0])) <> "".
Proof.
  assert (U : Async.undisturbed PlainView
                [Async.Act Demo.signing_env (ChooseFile {| files := Some [Demo.file] |});
                 Async.Settle 0; Async.Settle 0;
                 Async.Act Demo.signing_env ClickSign;
                 Async.Settle 0; Async.Settle 0; Async.Settle 0; Async.Settle 0] = true)
    by (vm_compute; reflexivity).
  assert (N : sig (Async.cells (Async.run PlainView
                [Async.Act Demo.signing_env (ChooseFile {| files := Some [Demo.file] |});
                 Async.Settle 0; Async.Settle 0;
                 Async.Act Demo.signing_env ClickSign;
                 Async.Settle 0; Async.Settle 0; Async.Settle 0; Async.Settle 0])) <> "")
    by (vm_compute; discriminate).
  split; [exact U | split; [exact N |]].
  exact (proj1 (plain_view_stays_consistent _ U) N).
Defined.

(** An action taken while a handler waits breaks it.  Submit is clicked and,
    while the request is on its way, the file dialog is cancelled: the cells
    are emptied, and the answer of the worker then stores a registration
    record beside an empty signature and an empty fingerprint. *)
Remark record_without_signature :
  Async.one_at_a_time PlainView Overlap.cancel_while_submitting (Async.start initial) = false
  /\ Async.pending (Async.run PlainView Overlap.cancel_while_submitting) = []
  /\ registerResult (Async.cells (Async.run PlainView Overlap.cancel_while_submitting))
     = Obj [("txHash", Str "0xabc")]
  /\ sig (Async.cells (Async.run PlainView Overlap.cancel_while_submitting)) = ""
  /\ hash (Async.cells (Async.run PlainView Overlap.cancel_while_submitting)) = "".
Proof. vm_compute. repeat split. Qed.

Lemma last_signed_app (a b : list Effect) (earlier : option string) :
  last_signed (a ++ b)%list earlier = last_signed b (last_signed a earlier).
Proof.
  revert earlier. induction a as [| e a IH]; intros earlier; [reflexivity |].
  destruct e; cbn; apply IH.
Qed.

Lemma posts_signed_app (a b : list Effect) (earlier : option string) :
  posts_signed (a ++ b)%list earlier
  = posts_signed a earlier && posts_signed b (last_signed a earlier).
Proof.
  revert earlier. induction a as [| e a IH]; intros earlier; [reflexivity |].
  destruct e; cbn; rewrite ?IH; try reflexivity.
  now rewrite andb_assoc.
Qed.

Lemma current_step
  (v : View) (env : Env) (a : Action) (s : Session) (earlier : option string) :
  signature_is_current s earlier = true ->
  posts_signed (effects (dispatch v env a) s) earlier = true
  /\ signature_is_current (after (dispatch v env a) s)
       (last_signed (effects (dispatch v env a) s) earlier) = true.
Proof.
  destruct s. unfold signature_is_current, signs. destruct earlier, a, v; js_go; bools.
Qed.

Lemma current_replay
  (v : View) (steps : list (Env * Action)) (s : Session) (earlier : option string) :
  signature_is_current s earlier = true ->
  posts_signed (history v steps s) earlier = true
  /\ signature_is_current (replay v steps s)
       (last_signed (history v steps s) earlier) = true.
Proof.
  revert s earlier. induction steps as [| [env a] rest IH]; intros s earlier H.
  - split; [reflexivity | exact H].
  - cbn [history replay].
    destruct (current_step v env a s earlier H) as [P C].
    destruct (IH _ _ C) as [P' C'].
    rewrite posts_signed_app, last_signed_app, P, P'. split; [reflexivity | exact C'].
Qed.

(** The log of a system is the beginning of the log it settles with. *)
Lemma settled_extends_log (sys : Async.System) :
  exists more, trace (Async.settled sys) = (Async.log sys ++ more)%list.
Proof.
  destruct sys as [s l [| t p]]; unfold Async.settled; cbn.
  - exists []. now rewrite app_nil_r.
  - rewrite atomic_log. cbn. eexists. reflexivity.
Qed.

(** X22.  No stale signature, in either view, as long as the user lets each
    handler finish before acting again: when such a run from the initial
    state is at rest and a signature and a fingerprint are both stored, the
    last message the wallet was asked to sign is the message built from that
    very fingerprint.  (A file chosen while the wallet prompt is open breaks
    it: see [signature_of_a_replaced_file].) *)
Theorem signature_belongs_to_the_fingerprint (v : View) (events : list Async.Event) :
  Async.undisturbed v events = true ->
  sig (Async.cells (Async.run v events)) <> "" ->
  hash (Async.cells (Async.run v events)) <> "" ->
  last_signed (Async.log (Async.run v events)) None
  = Some (buildSignedMessage (hash (Async.cells (Async.run v events)))).
Proof.
  intros U. destruct (undisturbed_replay v events U) as (steps & -> & ->).
  intros Ns Nh. apply truthy_true in Ns, Nh.
  destruct (current_replay v steps initial None eq_refl) as [_ C].
  unfold signature_is_current, signs in C. rewrite Ns, Nh in C. cbn in C.
  destruct (last_signed (history v steps initial) None) as [m |]; [| discriminate].
  apply String.eqb_eq in C. now rewrite C.
Qed.

Lemma signature_belongs_to_the_fingerprint_witness :
  Async.undisturbed StyledView
    [Async.Act Demo.signing_env (ChooseFile {| files := Some [Demo.file] |});
     Async.Settle 0; Async.Settle 0;
     Async.Act Demo.signing_env ClickSign;
     Async.Settle 0; Async.Settle 0; Async.Settle 0; Async.Settle 0;
     Async.Act Demo.signing_env ClickVerify;
     Async.Settle 0; Async.Settle 0] = true
  /\ last_signed
       (Async.log (Async.run StyledView
          [Async.Act Demo.signing_env (ChooseFile {| files := Some [Demo.file] |});
           Async.Settle 0; Async.Settle 0;
           Async.Act Demo.signing_env ClickSign;
           Async.Settle 0; Async.Settle 0; Async.Settle 0; Async.Settle 0;
           Async.Act Demo.signing_env ClickVerify;
           Async.Settle 0; Async.Settle 0])) None
     = Some (buildSignedMessage
               (hash (Async.cells (Async.run StyledView
                  [Async.Act Demo.signing_env (ChooseFile {| files := Some [Demo.file] |});
                   Async.Settle 0; Async.Settle 0;
                   Async.Act Demo.signing_env ClickSign;
                   Async.Settle 0; Async.Settle 0; Async.Settle 0; Async.Settle 0;
                   Async.Act Demo.signing_env ClickVerify;
                   Async.Settle 0; Async.Settle 0])))).
Proof.
  split; [vm_compute; reflexivity |].
  apply signature_belongs_to_the_fingerprint;
    [vm_compute; reflexivity | vm_compute; discriminate | vm_compute; discriminate].
Defined.

(** With an action taken while a handler waits it fails.  A file is chosen
    and Sign is clicked; while the wallet prompt is open another file is
    chosen and hashed; then the wallet answers.  The signature of the first
    file's message is stored beside the fingerprint of the second file. *)
Remark signature_of_a_replaced_file :
  Async.one_at_a_time StyledView Overlap.choose_while_signing (Async.start initial) = false
  /\ Async.pending (Async.run StyledView Overlap.choose_while_signing) = []
  /\ sig (Async.cells (Async.run StyledView Overlap.choose_while_signing)) = "0x5167"
  /\ hash (Async.cells (Async.run StyledView Overlap.choose_while_signing)) = "0x62"
  /\ last_signed (Async.log (Async.run StyledView Overlap.choose_while_signing)) None
     = Some (buildSignedMessage "0x61").
Proof. vm_compute. repeat split. Qed.

(** X23.  What reaches the worker, in either view, as long as the user lets
    each handler finish before acting again: at every moment of such a run
    from the initial state, waiting handlers included, every submission sent
    so far carries as [fileHash] the fingerprint whose message was the last
    one put to the wallet before it.  A fingerprint that was never put to
    the wallet is never submitted. *)
Theorem submissions_carry_the_signed_fingerprint
  (v : View) (events : list Async.Event)
  (before later : list Effect) (req : Request) (h : string) :
  Async.one_at_a_time v events (Async.start initial) = true ->
  Async.log (Async.run v events) = (before ++ Fetch req :: later)%list ->
  posted_hash req = Some h ->
  last_signed before None = Some (buildSignedMessage h).
Proof.
  intros O E P.
  destruct (one_at_a_time_replay v events (Async.start initial) []
              (le_S _ _ (le_n 0)) eq_refl O) as (steps & _ & R).
  fold (Async.run v events) in R.
  destruct (settled_extends_log (Async.run v events)) as [more M].
  rewrite R, E in M. cbn [trace] in M. rewrite <- app_assoc in M. cbn [app] in M.
  destruct (current_replay v steps initial None eq_refl) as [S _].
  rewrite M, posts_signed_app in S. apply andb_prop in S as [_ S].
  cbn in S. rewrite P in S. apply andb_prop in S as [S _].
  unfold signs in S.
  destruct (last_signed before None) as [m |]; [| discriminate].
  apply String.eqb_eq in S. now rewrite S.
Qed.

Lemma submissions_carry_the_signed_fingerprint_witness :
  Async.one_at_a_time PlainView
    [Async.Act Demo.signing_env (ChooseFile {| files := Some [Demo.file] |});
     Async.Settle 0; Async.Settle 0;
     Async.Act Demo.signing_env ClickSign;
     Async.Settle 0; Async.Settle 0; Async.Settle 0; Async.Settle 0;
     Async.Act Demo.signing_env (TokenIssued "tok-1");
     Async.Act Demo.signing_env ClickSubmit] (Async.start initial) = true
  /\ Async.log (Async.run PlainView
        [Async.Act Demo.signing_env (ChooseFile {| files := Some [Demo.file] |});
         Async.Settle 0; Async.Settle 0;
         Async.Act Demo.signing_env ClickSign;
         Async.Settle 0; Async.Settle 0; Async.Settle 0; Async.Settle 0;
         Async.Act Demo.signing_env (TokenIssued "tok-1");
         Async.Act Demo.signing_env ClickSubmit])
     = ([ReadFile "a.txt"; SubtleDigest "SHA-256" ["h"]%byte;
         ProviderSend "eth_requestAccounts"; GetSigner; GetAddress;
         SignMessage "Proof Insight: register file hash 0x00ff0a"]
        ++ Fetch (submitRequest Demo.signing_env Demo.signed) :: [])%list
  /\ posted_hash (submitRequest Demo.signing_env Demo.signed) = Some "0x00ff0a"
  /\ last_signed [ReadFile "a.txt"; SubtleDigest "SHA-256" ["h"]%byte;
                  ProviderSend "eth_requestAccounts"; GetSigner; GetAddress;
                  SignMessage "Proof Insight: register file hash 0x00ff0a"] None
     = Some (buildSignedMessage "0x00ff0a").
Proof.
  split; [vm_compute; reflexivity |].
  split; [vm_compute; reflexivity |].
  split; [vm_compute; reflexivity |].
  apply (submissions_carry_the_signed_fingerprint PlainView
           [Async.Act Demo.signing_env (ChooseFile {| files := Some [Demo.file] |});
            Async.Settle 0; Async.Settle 0;
            Async.Act Demo.signing_env ClickSign;
            Async.Settle 0; Async.Settle 0; Async.Settle 0; Async.Settle 0;
            Async.Act Demo.signing_env (TokenIssued "tok-1");
            Async.Act Demo.signing_env ClickSubmit]
           _ [] (submitRequest Demo.signing_env Demo.signed) "0x00ff0a");
    vm_compute; reflexivity.
Defined.

(** X24.  In the plain view an enabled Submit button reaches the worker, as
    long as the user lets each handler finish before acting again: when such
    a run from the initial state, along which the component stayed mounted,
    is at rest and the button is enabled, the click sends the POST built
    from the cells, and nothing else, before the handler first waits.  The
    guard message "Hash and signature required" can therefore not appear
    there. *)
Theorem plain_submit_reaches_the_worker (events : list Async.Event) (env : Env) :
  Async.undisturbed PlainView events = true ->
  stays_mounted PlainView events (Async.start initial) = true ->
  submitDisabled (Async.cells (Async.run PlainView events)) = false ->
  Async.log (Async.step PlainView (Async.Act env ClickSubmit) (Async.run PlainView events))
  = (Async.log (Async.run PlainView events)
     ++ [Fetch (submitRequest env (Async.cells (Async.run PlainView events)))])%list.
Proof.
  intros U _ D.
  destruct (undisturbed_replay PlainView events U) as (steps & Ec & _).
  pose proof (plain_replay steps initial eq_refl) as C. rewrite <- Ec in C.
  unfold plain_consistent in C.
  apply andb_prop in C as [C _]. apply andb_prop in C as [C _].
  unfold submitDisabled in D. apply orb_false_elim in D as [Ds Dt].
  apply negb_false_iff in Ds, Dt.
  assert (Dh : truthy (hash (Async.cells (Async.run PlainView events))) = true).
  { rewrite Ds in C. exact C. }
  clear C U Ec.
  destruct (Async.run PlainView events) as [s l p]. cbn [Async.cells] in *.
  destruct s. unfold submitRequest, submitDisabled.
  async_eval. js_eval. repeat (progress (rewrite ?Dh, ?Ds, ?Dt); js_red).
  reflexivity.
Qed.

Lemma plain_submit_reaches_the_worker_witness :
  Async.undisturbed PlainView
    [Async.Act Demo.signing_env (ChooseFile {| files := Some [Demo.file] |});
     Async.Settle 0; Async.Settle 0;
     Async.Act Demo.signing_env ClickSign;
     Async.Settle 0; Async.Settle 0; Async.Settle 0; Async.Settle 0;
     Async.Act Demo.signing_env (TokenIssued "tok-1")] = true
  /\ stays_mounted PlainView
       [Async.Act Demo.signing_env (ChooseFile {| files := Some [Demo.file] |});
        Async.Settle 0; Async.Settle 0;
        Async.Act Demo.signing_env ClickSign;
        Async.Settle 0; Async.Settle 0; Async.Settle 0; Async.Settle 0;
        Async.Act Demo.signing_env (TokenIssued "tok-1")] (Async.start initial) = true
  /\ Async.log
       (Async.step PlainView (Async.Act Demo.env ClickSubmit)
          (Async.run PlainView
             [Async.Act Demo.signing_env (ChooseFile {| files := Some [Demo.file] |});
              Async.Settle 0; Async.Settle 0;
              Async.Act Demo.signing_env ClickSign;
              Async.Settle 0; Async.Settle 0; Async.Settle 0; Async.Settle 0;
              Async.Act Demo.signing_env (TokenIssued "tok-1")]))
     = (Async.log
          (Async.run PlainView
             [Async.Act Demo.signing_env (ChooseFile {| files := Some [Demo.file] |});
              Async.Settle 0; Async.Settle 0;
              Async.Act Demo.signing_env ClickSign;
              Async.Settle 0; Async.Settle 0; Async.Settle 0; Async.Settle 0;
              Async.Act Demo.signing_env (TokenIssued "tok-1")])
        ++ [Fetch (submitRequest Demo.env
                     (Async.cells
                        (Async.run PlainView
                           [Async.Act Demo.signing_env
                              (ChooseFile {| files := Some [Demo.file] |});
                            Async.Settle 0; Async.Settle 0;
                            Async.Act Demo.signing_env ClickSign;
                            Async.Settle 0; Async.Settle 0; Async.Settle 0; Async.Settle 0;
                            Async.Act Demo.signing_env (TokenIssued "tok-1")])))])%list.
Proof.
  split; [vm_compute; reflexivity |].
  split; [vm_compute; reflexivity |].
  apply plain_submit_reaches_the_worker; vm_compute; reflexivity.
Defined.

(** In the styled view the same button can be enabled with no fingerprint:
    after choosing, signing, receiving a token and clearing the file, the
    click is answered by the guard of [onSubmit]. *)
Remark styled_submit_without_fingerprint :
  let s := replay StyledView
             (Demo.sign_then_clear ++ [(Demo.signing_env, TokenIssued "tok-1")])%list
             initial in
  submitDisabled s = false
  /\ run (dispatch StyledView Demo.env ClickSubmit) s
     = (Return, {| store := with_status "Hash and signature required" s; trace := [] |}).
Proof. vm_compute. split; reflexivity. Qed.

(** X25.  A submission can be tried again.  After an attempt that reached
    the worker and has settled with nothing else done meanwhile, and
    provided the component still renders with what the attempt stored (a
    record whose [txHash] is an object makes the next render throw, and
    nothing is left to click), a new token from the widget enables the
    Submit button, the component still renders, and the next click sends a
    POST with the same fingerprint, signature and address and with the new
    token. *)
Theorem submit_can_be_retried
  (v : View) (env env' : Env) (s : Session) (token : string) :
  hash s <> "" -> sig s <> "" -> turnstileToken s <> "" -> token <> "" ->
  renders (after (onSubmit env) s) = true ->
  renders (after (fun _ => onSuccess token) (after (onSubmit env) s)) = true
  /\ submitDisabled (after (fun _ => onSuccess token) (after (onSubmit env) s)) = false
  /\ exists rest,
       effects (dispatch v env' ClickSubmit)
         (after (fun _ => onSuccess token) (after (onSubmit env) s))
       = Fetch {| method := "POST";
                  url := {| href := WORKER_URL env'; searchParams := [] |};
                  headers := [("Content-Type", "application/json")];
                  body := Some (Obj [("fileHash", Str (hash s));
                                     ("signature", Str (sig s));
                                     ("user", Str (userAddr s));
                                     ("turnstileToken", Str token)]) |} :: rest.
Proof.
  intros Hh Hs Ht Hk R. apply truthy_true in Hh, Hs, Ht, Hk.
  split; [exact R |].
  destruct (onSubmit_footprint env s) as (st & rr & tok & E). rewrite E. clear E R.
  destruct s. js_eval. rewrite Hh, Hs, Hk. cbn. split; [reflexivity |].
  repeat (js_case; cbn); eexists; reflexivity.
Qed.

Lemma submit_can_be_retried_witness :
  hash Demo.signed <> "" /\ sig Demo.signed <> "" /\ turnstileToken Demo.signed <> ""
  /\ "tok-2" <> ""
  /\ renders (after (onSubmit Demo.env) Demo.signed) = true
  /\ status (after (onSubmit Demo.env) Demo.signed) = "Error: rate limited"
  /\ submitDisabled (after (fun _ => onSuccess "tok-2") (after (onSubmit Demo.env) Demo.signed))
     = false.
Proof.
  do 4 (split; [discriminate |]).
  split; [reflexivity |].
  split; [reflexivity |].
  exact (proj1 (proj2 (submit_can_be_retried PlainView Demo.env Demo.env Demo.signed "tok-2"
                  ltac:(discriminate) ltac:(discriminate) ltac:(discriminate)
                  ltac:(discriminate) eq_refl))).
Defined.

(** An accepted submission whose record cannot be shown: the worker answers
    2xx with a [txHash] that is an object.  The record is stored, and the
    component does not render with it. *)
Remark accepted_record_that_does_not_render :
  registerResult
    (after (onSubmit (with_fetch
                        (fun _ => Ok {| ok := true; statusText := "OK";
                                        json := Ok (Obj [("txHash", Obj [])]) |})
                        Demo.env))
       Demo.signed)
  = Obj [("txHash", Obj [])]
  /\ renders
       (after (onSubmit (with_fetch
                           (fun _ => Ok {| ok := true; statusText := "OK";
                                           json := Ok (Obj [("txHash", Obj [])]) |})
                           Demo.env))
          Demo.signed)
     = false.
Proof. vm_compute. split; reflexivity. Qed.

(** ** Module initialisation *)

(** X26.  The module loads exactly when both the worker address and the
    site key are set to non-empty strings; an empty string counts as not
    set.  A missing worker address is reported first, whatever the site key.
    Once loaded, none of the three constants is empty: the explorer address
    falls back to the Polygon Amoy explorer when it is not set or empty. *)
Theorem startup_needs_both_settings (v : View) (env : Startup.ImportMetaEnv) :
  ((exists c, Startup.load v env = Ok c)
   <-> Startup.set (Startup.VITE_WORKER_URL env) = true
       /\ Startup.set (Startup.VITE_TURNSTILE_SITE_KEY env) = true)
  /\ (Startup.set (Startup.VITE_WORKER_URL env) = false ->
      Startup.load v env = Err (Startup.not_set v "VITE_WORKER_URL"))
  /\ (forall c, Startup.load v env = Ok c ->
      Startup.VITE_WORKER_URL env = Some (Startup.WORKER_URL c)
      /\ Startup.VITE_TURNSTILE_SITE_KEY env = Some (Startup.TURNSTILE_SITE_KEY c)
      /\ Startup.WORKER_URL c <> ""
      /\ Startup.TURNSTILE_SITE_KEY c <> ""
      /\ Startup.SCAN_BASE_URL c <> ""
      /\ (Startup.set (Startup.VITE_SCAN_BASE_URL env) = false ->
          Startup.SCAN_BASE_URL c = "https://amoy.polygonscan.com/tx/")).
Proof.
  destruct env as [[w |] [k |] [b |]]; cbn;
    try destruct w; try destruct k; try destruct b; cbn;
    (split; [split; [intros [c E]; try discriminate E; split; reflexivity
                    | intros [A B]; try discriminate A; try discriminate B;
                      eexists; reflexivity]
            | split; [intros A; try discriminate A; reflexivity
                     | intros c E; try discriminate E; injection E as <-; cbn;
                       repeat split; try discriminate;
                       intros A; try discriminate A; reflexivity]]).
Qed.

Lemma startup_needs_both_settings_witness :
  let env := {| Startup.VITE_WORKER_URL := Some "";
                Startup.VITE_TURNSTILE_SITE_KEY := Some "0x4AAA";
                Startup.VITE_SCAN_BASE_URL := None |} in
  Startup.set (Startup.VITE_WORKER_URL env) = false
  /\ Startup.load StyledView env = Err "VITE_WORKER_URL is not set".
Proof.
  intros env. split; [reflexivity |].
  exact (proj1 (proj2 (startup_needs_both_settings StyledView env)) eq_refl).
Defined.
